(** * DPO fine-tuning notebook: the dataset transformation pipeline

    Shallow embedding of the data-reshaping code of
    [Finetuning/DPO_Finetuning.ipynb]:

    - [convert_to_preference_dataset]   (the "Preference Formatter"),
    - [convert_preference_to_sft_format] (the "Supervised Formatter"),
    - [process_preference_to_sft]        (the per-split driver),
    - the JSON-lines writer cell.

    The notebook is Python, so records are dictionaries and every field
    access can raise.  Values are therefore embedded as a universe of
    Python objects ([pyval]) and the functions live in an exception monad
    ([result]).  The notebook writes its files with [json.dumps] and reads
    a line back with [json.loads]; both belong to Python's standard
    library and are embedded after [json/encoder.py], [json/decoder.py]
    and [json/scanner.py], with the arguments the notebook leaves at their
    defaults, with the exceptions they raise on integers of more than 4300
    digits and at the recursion limit.  Floats are not part of [pyval].
    Of the file system the embedding keeps that the driver needs a
    directory part in its output path; a file is the sequence of the
    writes made to it.

    A second, typed layer ([Spec]) holds the records of the specification's
    data model and is related to the embedding by injections and views. *)

From Stdlib Require Import Ascii String ZArith NArith Lia Bool List.
Import ListNotations.

(* ================================================================== *)
(** ** Python values *)
(* ================================================================== *)

Module Py.

#[local] Open Scope N_scope.

(** A Python [str] is a sequence of Unicode code points. *)
Definition pystr := list N.

Definition of_string (s : string) : pystr :=
  map N_of_ascii (list_ascii_of_string s).

Fixpoint pystr_eqb (a b : pystr) : bool :=
  match a, b with
  | [], [] => true
  | x :: a', y :: b' => N.eqb x y && pystr_eqb a' b'
  | _, _ => false
  end.

(** The objects the pipeline handles: what a dataset row, a converted
    record or a decoded JSON text can be made of.  A [dict] keeps its
    insertion order (it is the order [json.dumps] writes), so it is an
    association list; its keys are strings. *)
#[local] Unset Elimination Schemes.
Inductive pyval : Type :=
| PNone
| PBool (b : bool)
| PInt (z : Z)
| PStr (s : pystr)
| PList (l : list pyval)
| PDict (d : list (pystr * pyval)).
#[local] Set Elimination Schemes.

Definition pydict := list (pystr * pyval).

Inductive type_error : Type :=
| not_subscriptable        (* None["k"], 3["k"], True["k"] *)
| indices_must_be_integers (* [..]["k"], "abc"["k"] *)
| not_iterable.            (* for _ in None / 3 / True *)

Inductive pyerr : Type :=
| KeyError (k : pystr)
| TypeError (t : type_error)
| AttributeError
| FileNotFoundError
| ValueError
| RecursionError
| JSONDecodeError
| FloatNotModelled   (* no exception of Python: the decoded value would be
                        a float, which [pyval] does not have *)
| OutOfFuel.         (* no exception of Python: the bound given to a
                        decoder loop was too small *)

(** Exceptions: a computation returns a value or raises. *)
Inductive result (A : Type) : Type :=
| Ok (a : A)
| Raise (e : pyerr).

Arguments Ok {A} a.
Arguments Raise {A} e.

Definition bind {A B} (c : result A) (k : A -> result B) : result B :=
  match c with
  | Ok a => k a
  | Raise e => Raise e
  end.

Definition is_ok {A} (c : result A) : bool :=
  match c with Ok _ => true | Raise _ => false end.

(** [d.get(k)] on the association list: the first binding of [k]. *)
Fixpoint dict_get (k : pystr) (d : pydict) : option pyval :=
  match d with
  | [] => None
  | (k', v) :: d' => if pystr_eqb k k' then Some v else dict_get k d'
  end.

(** [d[k] = v]: overwrite in place when [k] is bound, else add at the end. *)
Fixpoint dict_set (k : pystr) (v : pyval) (d : pydict) : pydict :=
  match d with
  | [] => [(k, v)]
  | (k', v') :: d' =>
      if pystr_eqb k k' then (k', v) :: d' else (k', v') :: dict_set k v d'
  end.

(** [obj[k]] with a string subscript. *)
Definition getitem (obj : pyval) (k : pystr) : result pyval :=
  match obj with
  | PDict d =>
      match dict_get k d with
      | Some v => Ok v
      | None => Raise (KeyError k)
      end
  | PList _ | PStr _ => Raise (TypeError indices_must_be_integers)
  | PNone | PBool _ | PInt _ => Raise (TypeError not_subscriptable)
  end.

(** The items [for x in obj] runs through: the elements of a list, the keys
    of a dict, the one-character strings of a string. *)
Definition iterate (obj : pyval) : result (list pyval) :=
  match obj with
  | PList l => Ok l
  | PDict d => Ok (map (fun kv => PStr (fst kv)) d)
  | PStr s => Ok (map (fun c => PStr [c]) s)
  | PNone | PBool _ | PInt _ => Raise (TypeError not_iterable)
  end.

(** [obj.append(x)]; only lists have the method. *)
Definition append (obj x : pyval) : result pyval :=
  match obj with
  | PList l => Ok (PList (l ++ [x]))
  | _ => Raise AttributeError
  end.

(** A [for] loop whose body may raise, threading the loop's state. *)
Fixpoint for_each {A S} (body : S -> A -> result S) (xs : list A) (s : S)
  : result S :=
  match xs with
  | [] => Ok s
  | x :: xs' => bind (body s x) (for_each body xs')
  end.

(** A loop that collects one result per item and stops at the first
    exception. *)
Fixpoint traverse {A B} (f : A -> result B) (xs : list A) : result (list B) :=
  match xs with
  | [] => Ok []
  | x :: xs' =>
      bind (f x) (fun y => bind (traverse f xs') (fun ys => Ok (y :: ys)))
  end.

End Py.

Export Py.

Declare Scope py_scope.
Delimit Scope py_scope with py.
Notation "x <- c ;; k" := (bind c (fun x => k))
  (at level 61, c at next level, right associativity) : py_scope.
Open Scope py_scope.

(** The string constants of the notebook. *)
Definition K_prompt := of_string "prompt".
Definition K_chosen_response := of_string "chosen_response".
Definition K_rejected_response := of_string "rejected_response".
Definition K_role := of_string "role".
Definition K_content := of_string "content".
Definition K_user := of_string "user".
Definition K_assistant := of_string "assistant".
Definition K_input := of_string "input".
Definition K_messages := of_string "messages".
Definition K_preferred_output := of_string "preferred_output".
Definition K_non_preferred_output := of_string "non_preferred_output".
Definition K_train := of_string "train".
Definition K_validation := of_string "validation".

(* ================================================================== *)
(** ** [json.dumps] with its default arguments *)
(* ================================================================== *)

Module Json.

#[local] Open Scope N_scope.

(** The lower-case hexadecimal digit of [n < 16]. *)
Definition hex_digit (n : N) : N :=
  if n <? 10 then 48 + n else 87 + n.

(** [bslash u X X X X], what ['\\u{0:04x}'.format(n)] builds. *)
Definition u_escape (n : N) : pystr :=
  [92; 117;
   hex_digit (N.shiftr n 12 mod 16); hex_digit (N.shiftr n 8 mod 16);
   hex_digit (N.shiftr n 4 mod 16); hex_digit (n mod 16)].

(** One character of [encode_basestring_ascii]: the quote and the
    backslash are escaped, the printable ASCII characters (space to tilde)
    stand for themselves, five control characters have a short
    escape, and everything else is written as one escape of four
    hexadecimal digits, or as a surrogate pair above the basic plane. *)
Definition encode_char (c : N) : pystr :=
  if c =? 34 then [92; 34]
  else if c =? 92 then [92; 92]
  else if (32 <=? c) && (c <=? 126) then [c]
  else if c =? 8 then [92; 98]
  else if c =? 12 then [92; 102]
  else if c =? 10 then [92; 110]
  else if c =? 13 then [92; 114]
  else if c =? 9 then [92; 116]
  else if c <? 65536 then u_escape c
  else
    let n := c - 65536 in
    let s1 := N.lor 55296 (N.land (N.shiftr n 10) 1023) in
    let s2 := N.lor 56320 (N.land n 1023) in
    u_escape s1 ++ u_escape s2.

Definition encode_basestring_ascii (s : pystr) : pystr :=
  [34] ++ flat_map encode_char s ++ [34].

(** [str(n)] of a non-negative integer, most significant digit first;
    [fuel] bounds the number of digits.  (CPython 3.11 and later refuse to
    convert integers of more than 4300 digits: see [too_many_digits] and
    [dumps] below.) *)
Fixpoint digits_of (fuel : nat) (n : N) (acc : pystr) : pystr :=
  match fuel with
  | O => acc
  | S fuel' =>
      let acc' := (48 + n mod 10) :: acc in
      if n <? 10 then acc' else digits_of fuel' (n / 10) acc'
  end.

Definition str_of_N (n : N) : pystr :=
  digits_of (S (N.to_nat (N.log2 n))) n [].

Definition str_of_int (z : Z) : pystr :=
  match z with
  | Zneg p => 45 :: str_of_N (Npos p)
  | _ => str_of_N (Z.to_N z)
  end.

(** [sep.join(items)] *)
Fixpoint join (sep : pystr) (items : list pystr) : pystr :=
  match items with
  | [] => []
  | [x] => x
  | x :: rest => x ++ sep ++ join sep rest
  end.

Definition item_separator : pystr := [44; 32].
Definition key_separator : pystr := [58; 32].

(** The text of [json.dumps(obj)]: [ensure_ascii=True], separators [", "]
    and [": "], no indentation, keys in insertion order.  This is what the
    call returns when it returns; [json_dumps_raises] below tells when it
    raises instead. *)
Fixpoint json_dumps (obj : pyval) : pystr :=
  match obj with
  | PNone => of_string "null"
  | PBool true => of_string "true"
  | PBool false => of_string "false"
  | PInt z => str_of_int z
  | PStr s => encode_basestring_ascii s
  | PList l => [91] ++ join item_separator (map json_dumps l) ++ [93]
  | PDict d =>
      [123] ++
      join item_separator
        (map (fun kv => encode_basestring_ascii (fst kv) ++ key_separator
                        ++ json_dumps (snd kv)) d)
      ++ [125]
  end.

(** *** When [json.dumps] raises *)

(** The integers [str] refuses to convert: those of more than 4300 digits,
    the default of [sys.set_int_max_str_digits] since CPython 3.11. *)
Definition too_many_digits (z : Z) : bool := (10 ^ 4300 <=? Z.abs z)%Z.

(** The first exception of a sequence of outcomes. *)
Fixpoint first_raised (outcomes : list (option pyerr)) : option pyerr :=
  match outcomes with
  | [] => None
  | Some e :: _ => Some e
  | None :: rest => first_raised rest
  end.

(** The exception the encoder raises on [obj], if any, when [room] more
    levels of lists and dicts may be entered: the members are encoded in
    order, an integer of too many digits raises [ValueError], a list or a
    dict met when no level is left raises [RecursionError]. *)
Fixpoint json_dumps_raises_in (room : nat) (obj : pyval) {struct obj}
  : option pyerr :=
  match obj with
  | PInt z => if too_many_digits z then Some ValueError else None
  | PList l =>
      match room with
      | O => Some RecursionError
      | S room' => first_raised (map (json_dumps_raises_in room') l)
      end
  | PDict d =>
      match room with
      | O => Some RecursionError
      | S room' =>
          first_raised
            (map (fun kv => json_dumps_raises_in room' (snd kv)) d)
      end
  | PNone | PBool _ | PStr _ => None
  end.

(** The levels the encoder may enter.  CPython counts them against the
    recursion limit, 1000 by default, of which the frames of the caller
    take a part that depends on the interpreter: the statements below that
    depend on it are made for values nested far less deeply. *)
Definition recursion_room : nat := 1000.

Definition json_dumps_raises (obj : pyval) : option pyerr :=
  json_dumps_raises_in recursion_room obj.

(** The call [json.dumps(obj)]. *)
Definition dumps (obj : pyval) : result pystr :=
  match json_dumps_raises obj with
  | Some e => Raise e
  | None => Ok (json_dumps obj)
  end.

(** *** [json.loads], after [json/decoder.py] and [json/scanner.py] *)

Definition is_whitespace (c : N) : bool :=
  (c =? 32) || (c =? 9) || (c =? 10) || (c =? 13).

(** [WHITESPACE.match(s, end).end()] *)
Fixpoint skip_whitespace (s : pystr) : pystr :=
  match s with
  | c :: rest => if is_whitespace c then skip_whitespace rest else s
  | [] => []
  end.

(** The value of a hexadecimal digit, [0-9A-Fa-f]. *)
Definition hex_value (c : N) : option N :=
  if (48 <=? c) && (c <=? 57) then Some (c - 48)
  else if (97 <=? c) && (c <=? 102) then Some (c - 87)
  else if (65 <=? c) && (c <=? 70) then Some (c - 55)
  else None.

(** [int(esc, 16)] of four hexadecimal digits. *)
Definition decode_hex4 (a b c d : N) : option N :=
  match hex_value a, hex_value b, hex_value c, hex_value d with
  | Some x, Some y, Some z, Some w => Some (((x * 16 + y) * 16 + z) * 16 + w)
  | _, _, _, _ => None
  end.

(** The table [BACKSLASH]. *)
Definition backslash (esc : N) : option N :=
  if esc =? 34 then Some 34
  else if esc =? 92 then Some 92
  else if esc =? 47 then Some 47
  else if esc =? 98 then Some 8
  else if esc =? 102 then Some 12
  else if esc =? 110 then Some 10
  else if esc =? 114 then Some 13
  else if esc =? 116 then Some 9
  else None.

Definition is_high_surrogate (c : N) : bool := (55296 <=? c) && (c <=? 56319).
Definition is_low_surrogate (c : N) : bool := (56320 <=? c) && (c <=? 57343).

Definition join_surrogates (uni uni2 : N) : N :=
  65536 + N.lor (N.shiftl (uni - 55296) 10) (uni2 - 56320).

Definition push_char (c : N) (r : result (pystr * pystr))
  : result (pystr * pystr) :=
  match r with
  | Ok (str, rest) => Ok (c :: str, rest)
  | Raise e => Raise e
  end.

(** [scanstring(s, end)] in strict mode, [s] read from just after the
    opening quote: the decoded string and what follows the closing quote. *)
Fixpoint scanstring (s : pystr) : result (pystr * pystr) :=
  match s with
  | [] => Raise JSONDecodeError
  | c :: rest =>
      if c =? 34 then Ok ([], rest)
      else if c =? 92 then
        match rest with
        | [] => Raise JSONDecodeError
        | esc :: rest1 =>
            if esc =? 117 then
              match rest1 with
              | h1 :: h2 :: h3 :: h4 :: rest2 =>
                  match decode_hex4 h1 h2 h3 h4 with
                  | None => Raise JSONDecodeError
                  | Some uni =>
                      match rest2 with
                      | b :: u :: rest3 =>
                          if is_high_surrogate uni && (b =? 92) && (u =? 117)
                          then
                            match rest3 with
                            | l1 :: l2 :: l3 :: l4 :: rest4 =>
                                match decode_hex4 l1 l2 l3 l4 with
                                | None => Raise JSONDecodeError
                                | Some uni2 =>
                                    if is_low_surrogate uni2
                                    then push_char (join_surrogates uni uni2)
                                                   (scanstring rest4)
                                    else push_char uni (scanstring rest2)
                                end
                            | _ => Raise JSONDecodeError
                            end
                          else push_char uni (scanstring rest2)
                      | _ => push_char uni (scanstring rest2)
                      end
                  end
              | _ => Raise JSONDecodeError
              end
            else
              match backslash esc with
              | Some char => push_char char (scanstring rest1)
              | None => Raise JSONDecodeError
              end
        end
      else if c <? 32 then Raise JSONDecodeError
      else push_char c (scanstring rest)
  end.

(** [s] without the prefix [p], when it starts with it. *)
Fixpoint strip_prefix (p s : pystr) : option pystr :=
  match p, s with
  | [], _ => Some s
  | x :: p', y :: s' => if x =? y then strip_prefix p' s' else None
  | _ :: _, [] => None
  end.

(** The digits of a number: the ASCII digits, as in the scanner CPython
    runs. *)
Definition is_digit (c : N) : bool := (48 <=? c) && (c <=? 57).

Fixpoint span_digits (s : pystr) : pystr * pystr :=
  match s with
  | c :: rest =>
      if is_digit c
      then let (digits, rest') := span_digits rest in (c :: digits, rest')
      else ([], s)
  | [] => ([], [])
  end.

Definition int_of_digits (digits : pystr) : N :=
  fold_left (fun acc d => acc * 10 + (d - 48)) digits 0.

(** The first group of [NUMBER_RE] as an [int]: an optional minus sign,
    then a single zero or a digit from 1 to 9 followed by any digits. *)
Definition match_integer (s : pystr) : option (Z * pystr) :=
  let '(negative, s1) :=
    match s with
    | c :: rest => if c =? 45 then (true, rest) else (false, s)
    | [] => (false, s)
    end in
  let sign (n : N) := if negative then (- Z.of_N n)%Z else Z.of_N n in
  match s1 with
  | d :: rest =>
      if d =? 48 then Some (sign 0, rest)
      else if is_digit d
      then let (digits, rest') := span_digits rest in
           Some (sign (int_of_digits (d :: digits)), rest')
      else None
  | [] => None
  end.

(** Whether a fraction or an exponent follows, the second and third group
    of [NUMBER_RE]; the number is then a float. *)
Definition frac_or_exp_follows (s : pystr) : bool :=
  match s with
  | c :: d :: rest =>
      ((c =? 46) && is_digit d)
      || (((c =? 101) || (c =? 69))
          && (is_digit d
              || (((d =? 43) || (d =? 45))
                  && match rest with e :: _ => is_digit e | [] => false end)))
  | _ => false
  end.

(** [dict(pairs)]: a repeated key keeps its first place and its last
    value. *)
Definition dict_of_pairs (pairs : pydict) : pydict :=
  fold_left (fun d kv => dict_set (fst kv) (snd kv) d) pairs [].

Section Containers.

(** The scanner the two container decoders call for their members. *)
Variable scan_once : pystr -> result (pyval * pystr).

(** The loop of [JSONArray], at the start of a value; [n] bounds the
    number of turns. *)
Fixpoint array_loop (n : nat) (s : pystr) (values : list pyval)
  : result (pyval * pystr) :=
  match n with
  | O => Raise OutOfFuel
  | S n' =>
      bind (scan_once s) (fun '(value, s1) =>
        let values := values ++ [value] in
        match skip_whitespace s1 with
        | c :: s2 =>
            if c =? 93 then Ok (PList values, s2)
            else if c =? 44 then array_loop n' (skip_whitespace s2) values
            else Raise JSONDecodeError
        | [] => Raise JSONDecodeError
        end)
  end.

(** [JSONArray((s, end), scan_once)], [s] read from after the bracket. *)
Definition JSONArray (s : pystr) : result (pyval * pystr) :=
  match skip_whitespace s with
  | c :: rest =>
      if c =? 93 then Ok (PList [], rest)
      else array_loop (length s) (c :: rest) []
  | [] => Raise JSONDecodeError
  end.

(** The loop of [JSONObject], just after the opening quote of a key. *)
Fixpoint object_loop (n : nat) (s : pystr) (pairs : pydict)
  : result (pyval * pystr) :=
  match n with
  | O => Raise OutOfFuel
  | S n' =>
      bind (scanstring s) (fun '(key, s1) =>
        match skip_whitespace s1 with
        | colon :: s2 =>
            if colon =? 58 then
              bind (scan_once (skip_whitespace s2)) (fun '(value, s3) =>
                let pairs := pairs ++ [(key, value)] in
                match skip_whitespace s3 with
                | c :: s4 =>
                    if c =? 125 then Ok (PDict (dict_of_pairs pairs), s4)
                    else if c =? 44 then
                      match skip_whitespace s4 with
                      | quote :: s5 =>
                          if quote =? 34 then object_loop n' s5 pairs
                          else Raise JSONDecodeError
                      | [] => Raise JSONDecodeError
                      end
                    else Raise JSONDecodeError
                | [] => Raise JSONDecodeError
                end)
            else Raise JSONDecodeError
        | [] => Raise JSONDecodeError
        end)
  end.

(** [JSONObject((s, end), ..)], [s] read from after the brace. *)
Definition JSONObject (s : pystr) : result (pyval * pystr) :=
  match skip_whitespace s with
  | c :: rest =>
      if c =? 34 then object_loop (length s) rest []
      else if c =? 125 then Ok (PDict [], rest)
      else Raise JSONDecodeError
  | [] => Raise JSONDecodeError
  end.

End Containers.

(** [_scan_once(string, idx)].  As in the encoder, [room] more levels of
    arrays and objects may be entered, beyond which the scanner raises
    [RecursionError]; [int(integer)] raises [ValueError] on more than 4300
    digits. *)
Fixpoint scan_once (room : nat) (s : pystr) : result (pyval * pystr) :=
  match s with
  | [] => Raise JSONDecodeError
  | nextchar :: rest =>
      if nextchar =? 34 then
        bind (scanstring rest) (fun '(str, r) => Ok (PStr str, r))
      else if nextchar =? 123 then
        match room with
        | O => Raise RecursionError
        | S room' => JSONObject (scan_once room') rest
        end
      else if nextchar =? 91 then
        match room with
        | O => Raise RecursionError
        | S room' => JSONArray (scan_once room') rest
        end
      else
        match strip_prefix (of_string "null") s,
              strip_prefix (of_string "true") s,
              strip_prefix (of_string "false") s with
        | Some r, _, _ => Ok (PNone, r)
        | _, Some r, _ => Ok (PBool true, r)
        | _, _, Some r => Ok (PBool false, r)
        | None, None, None =>
            match match_integer s with
            | Some (z, r) =>
                if frac_or_exp_follows r then Raise FloatNotModelled
                else if too_many_digits z then Raise ValueError
                else Ok (PInt z, r)
            | None =>
                match strip_prefix (of_string "NaN") s,
                      strip_prefix (of_string "Infinity") s,
                      strip_prefix (of_string "-Infinity") s with
                | None, None, None => Raise JSONDecodeError
                | _, _, _ => Raise FloatNotModelled
                end
            end
        end
  end.

(** [json.loads(s)] for a [str]: one value, white space around it, and
    nothing else. *)
Definition starts_with_bom (s : pystr) : bool :=
  match s with
  | c :: _ => c =? 65279
  | [] => false
  end.

Definition json_loads (s : pystr) : result pyval :=
  if starts_with_bom s then Raise JSONDecodeError
  else
    bind (scan_once recursion_room (skip_whitespace s)) (fun '(obj, rest) =>
      match skip_whitespace rest with
      | [] => Ok obj
      | _ :: _ => Raise JSONDecodeError
      end).

End Json.

Export Json.

(* ================================================================== *)
(** ** The notebook's functions *)
(* ================================================================== *)

Module Notebook.

(** [{"role": role, "content": content}] *)
Definition message (role : pystr) (content : pyval) : pyval :=
  PDict [(K_role, PStr role); (K_content, content)].

(** The body of the inner loop of [convert_to_preference_dataset]: the
    record built from one [example]. *)
Definition preference_format (example : pyval) : result pyval :=
  prompt <- getitem example K_prompt ;;
  let messages := PList [message K_user prompt] in
  chosen <- getitem example K_chosen_response ;;
  let preferred_output := PList [message K_assistant chosen] in
  rejected <- getitem example K_rejected_response ;;
  let non_preferred_output := PList [message K_assistant rejected] in
  Ok (PDict [(K_input, PDict [(K_messages, messages)]);
             (K_preferred_output, preferred_output);
             (K_non_preferred_output, non_preferred_output)]).

(** [converted_dataset[split].append(record)] *)
Definition append_to_split (split : pystr) (converted : pydict)
    (record : pyval) : result pydict :=
  l <- getitem (PDict converted) split ;;
  l' <- append l record ;;
  Ok (dict_set split l' converted).

(** One turn of the outer loop: all the examples of [dataset[split]]. *)
Definition convert_split (dataset : pyval) (converted : pydict)
    (split : pystr) : result pydict :=
  rows <- getitem dataset split ;;
  examples <- iterate rows ;;
  for_each (fun converted example =>
              record <- preference_format example ;;
              append_to_split split converted record)
           examples converted.

Definition convert_to_preference_dataset (dataset : pyval) : result pyval :=
  let converted_dataset := [(K_train, PList []); (K_validation, PList [])] in
  converted <- for_each (convert_split dataset) [K_train; K_validation]
                        converted_dataset ;;
  Ok (PDict converted).

(** [convert_preference_to_sft_format(data)] *)
Definition convert_preference_to_sft_format (data : pyval) : result pyval :=
  input <- getitem data K_input ;;
  input_messages <- getitem input K_messages ;;
  msgs <- iterate input_messages ;;
  let messages := fold_left (fun messages msg => messages ++ [msg]) msgs [] in
  preferred_output <- getitem data K_preferred_output ;;
  extension <- iterate preferred_output ;;
  let messages := messages ++ extension in
  Ok (PDict [(K_messages, PList messages)]).

(** The JSON-lines writer: one [f.write(json.dumps(example) + "\n")] per
    record; the file is the sequence of the writes.  [write_jsonl] is the
    file when every [json.dumps] returns. *)
Definition newline : pystr := [10%N].

Definition write_jsonl (records : list pyval) : list pystr :=
  map (fun example => json_dumps example ++ newline) records.

(** The loop of the writer, which has no handler: the writes made, and the
    exception of [json.dumps] that ended the loop, if one did. *)
Fixpoint write_loop (records : list pyval) (written : list pystr)
  : list pystr * option pyerr :=
  match records with
  | [] => (written, None)
  | example :: rest =>
      match dumps example with
      | Ok text => write_loop rest (written ++ [text ++ newline])
      | Raise e => (written, Some e)
      end
  end.

(** [os.path.dirname(p)] of [posixpath]: [p] up to its last slash, without
    the slashes at the end unless there is nothing else. *)
Definition is_slash (c : N) : bool := (c =? 47)%N.

Definition has_slash (p : pystr) : bool := existsb is_slash p.

Fixpoint up_to_last_slash (p : pystr) : pystr :=
  match p with
  | [] => []
  | c :: rest => if has_slash p then c :: up_to_last_slash rest else []
  end.

Fixpoint lstrip_slashes (p : pystr) : pystr :=
  match p with
  | c :: rest => if is_slash c then lstrip_slashes rest else p
  | [] => []
  end.

Definition dirname (p : pystr) : pystr :=
  let head := up_to_last_slash p in
  if forallb is_slash head then head
  else rev (lstrip_slashes (rev head)).

(** [os.makedirs(os.path.dirname(output_path), exist_ok=True)] followed by
    [open(output_path, 'w')].  A path without a directory part makes
    [os.makedirs('')] raise [FileNotFoundError].  What else can go wrong
    lies with the operating system (a name it refuses, rights, a file in
    the way of the directory, no room), which the embedding takes to let
    the directory be made and the file be opened and written; the
    statements about the driver are made for relative paths of plain
    names. *)
Definition open_output (output_path : pystr) : result unit :=
  match dirname output_path with
  | [] => Raise FileNotFoundError
  | _ :: _ => Ok tt
  end.

(** The paths of the cell that calls the driver. *)
Definition sft_train_output_path : pystr :=
  of_string "data/helpsteer2_sft_training.jsonl".

Definition sft_validation_output_path : pystr :=
  of_string "data/helpsteer2_sft_validation.jsonl".

(** What the driver prints. *)
Inductive stdout_line : Type :=
| Processed (n : nat)                    (* Processed {n} examples *)
| ErrorProcessing (n : nat) (e : pyerr)  (* Error processing example {n}: {e} *)
| ProcessedFor (n : nat) (split output_path : pystr).
          (* Processed {n} examples for {split}. Output saved to {path} *)

(** The state of [process_preference_to_sft]: its counter, the writes to
    [outfile] and the printed lines. *)
Record sft_run : Type := {
  line_count : nat;
  outfile : list pystr;
  stdout : list stdout_line
}.

(** One turn of the loop: the [try] block and its [except Exception],
    which catches what the formatter raises and what [json.dumps]
    raises. *)
Definition sft_step (split : pystr) (st : sft_run) (example : pyval)
  : sft_run :=
  match (sft_format <- convert_preference_to_sft_format example ;;
         dumps sft_format) with
  | Ok text =>
      let written := outfile st ++ [text ++ newline] in
      let line_count' := line_count st + 1 in
      if (line_count' mod 2000 =? 0)%nat && pystr_eqb split K_train
      then {| line_count := line_count'; outfile := written;
              stdout := stdout st ++ [Processed line_count'] |}
      else {| line_count := line_count'; outfile := written;
              stdout := stdout st |}
  | Raise e =>
      {| line_count := line_count st; outfile := outfile st;
         stdout := stdout st ++ [ErrorProcessing (line_count st + 1) e] |}
  end.

(** [process_preference_to_sft(input_data, output_path, split)]: the
    returned count together with the file and the output it leaves. *)
Definition process_preference_to_sft (input_data : pyval)
    (output_path split : pystr) : result sft_run :=
  let start := {| line_count := 0; outfile := []; stdout := [] |} in
  _ <- open_output output_path ;;
  rows <- getitem input_data split ;;
  examples <- iterate rows ;;
  let st := fold_left (sft_step split) examples start in
  let report := ProcessedFor (line_count st) split output_path in
  Ok {| line_count := line_count st; outfile := outfile st;
        stdout := stdout st ++ [report] |}.

End Notebook.

Export Notebook.

(* ================================================================== *)
(** ** The data model of the specification *)
(* ================================================================== *)

Module Spec.

Inductive role : Type := user | assistant.

Record ChatMessage : Type := {
  msg_role : role;
  content : pystr
}.

Record RawExample : Type := {
  prompt : pystr;
  chosen_response : pystr;
  rejected_response : pystr
}.

Record PreferenceRecord : Type := {
  input_messages : list ChatMessage;
  preferred_output : list ChatMessage;
  non_preferred_output : list ChatMessage
}.

Record SupervisedRecord : Type := {
  messages : list ChatMessage
}.

(** The two formatters as the specification words them. *)
Definition PreferenceFormat (r : RawExample) : PreferenceRecord :=
  {| input_messages := [{| msg_role := user; content := prompt r |}];
     preferred_output :=
       [{| msg_role := assistant; content := chosen_response r |}];
     non_preferred_output :=
       [{| msg_role := assistant; content := rejected_response r |}] |}.

Definition SupervisedFormat (p : PreferenceRecord) : SupervisedRecord :=
  {| messages := input_messages p ++ preferred_output p |}.

(** The invariant of a PreferenceRecord: user turns on the input side, one
    assistant message on each output side. *)
Definition is_user (m : ChatMessage) : bool :=
  match msg_role m with user => true | assistant => false end.

Definition is_assistant (m : ChatMessage) : bool :=
  match msg_role m with assistant => true | user => false end.

Definition one_assistant (l : list ChatMessage) : bool :=
  match l with
  | [m] => is_assistant m
  | _ => false
  end.

Definition well_formed (p : PreferenceRecord) : bool :=
  forallb is_user (input_messages p)
  && one_assistant (preferred_output p)
  && one_assistant (non_preferred_output p).

(** *** The records as Python objects *)

Definition py_of_role (r : role) : pystr :=
  match r with user => K_user | assistant => K_assistant end.

Definition py_of_message (m : ChatMessage) : pyval :=
  PDict [(K_role, PStr (py_of_role (msg_role m)));
         (K_content, PStr (content m))].

Definition py_of_messages (l : list ChatMessage) : pyval :=
  PList (map py_of_message l).

Definition py_of_raw (r : RawExample) : pyval :=
  PDict [(K_prompt, PStr (prompt r));
         (K_chosen_response, PStr (chosen_response r));
         (K_rejected_response, PStr (rejected_response r))].

Definition py_of_preference (p : PreferenceRecord) : pyval :=
  PDict [(K_input, PDict [(K_messages, py_of_messages (input_messages p))]);
         (K_preferred_output, py_of_messages (preferred_output p));
         (K_non_preferred_output, py_of_messages (non_preferred_output p))].

Definition py_of_supervised (s : SupervisedRecord) : pyval :=
  PDict [(K_messages, py_of_messages (messages s))].

(** *** Reading a Python object as a record *)

Definition view_str (v : pyval) : option pystr :=
  match v with PStr s => Some s | _ => None end.

Definition view_field (k : pystr) (v : pyval) : option pyval :=
  match v with PDict d => dict_get k d | _ => None end.

Definition view_string_field (k : pystr) (v : pyval) : option pystr :=
  match view_field k v with Some x => view_str x | None => None end.

(** A dataset row is a RawExample when its three fields are strings; a row
    may carry other columns. *)
Definition view_raw (row : pyval) : option RawExample :=
  match view_string_field K_prompt row,
        view_string_field K_chosen_response row,
        view_string_field K_rejected_response row with
  | Some p, Some c, Some r =>
      Some {| prompt := p; chosen_response := c; rejected_response := r |}
  | _, _, _ => None
  end.

Definition view_role (s : pystr) : option role :=
  if pystr_eqb s K_user then Some user
  else if pystr_eqb s K_assistant then Some assistant
  else None.

Definition view_message (v : pyval) : option ChatMessage :=
  match v with
  | PDict [(k1, PStr r); (k2, PStr c)] =>
      if pystr_eqb k1 K_role && pystr_eqb k2 K_content then
        match view_role r with
        | Some r' => Some {| msg_role := r'; content := c |}
        | None => None
        end
      else None
  | _ => None
  end.

Fixpoint view_all {A} (view : pyval -> option A) (l : list pyval)
  : option (list A) :=
  match l with
  | [] => Some []
  | v :: l' =>
      match view v, view_all view l' with
      | Some a, Some r => Some (a :: r)
      | _, _ => None
      end
  end.

Definition view_messages (v : pyval) : option (list ChatMessage) :=
  match v with
  | PList l => view_all view_message l
  | _ => None
  end.

Definition view_preference (v : pyval) : option PreferenceRecord :=
  match v with
  | PDict [(k1, PDict [(k2, ms)]); (k3, po); (k4, npo)] =>
      if pystr_eqb k1 K_input && pystr_eqb k2 K_messages
         && pystr_eqb k3 K_preferred_output
         && pystr_eqb k4 K_non_preferred_output
      then
        match view_messages ms, view_messages po, view_messages npo with
        | Some a, Some b, Some c =>
            Some {| input_messages := a; preferred_output := b;
                    non_preferred_output := c |}
        | _, _, _ => None
        end
      else None
  | _ => None
  end.

End Spec.

Export Spec.

(* ================================================================== *)
(** ** Notions used in the statements *)
(* ================================================================== *)

(** [obj] is there and can be iterated. *)
Definition iterable (obj : result pyval) : bool := is_ok (bind obj iterate).

(** The two things the Supervised Formatter needs of [data]:
    [data["input"]["messages"]] and [data["preferred_output"]], each
    present and iterable. *)
Definition sft_readable (data : pyval) : bool :=
  iterable (input <- getitem data K_input ;; getitem input K_messages)
  && iterable (getitem data K_preferred_output).

(** What the [try] block of the driver does with one example, up to the
    write: the record the Supervised Formatter returns, once [json.dumps]
    has returned its text. *)
Definition sft_try (example : pyval) : result pyval :=
  sft_format <- convert_preference_to_sft_format example ;;
  _ <- dumps sft_format ;;
  Ok sft_format.

(** The records of a split that get through the [try] block, in order. *)
Definition sft_records (examples : list pyval) : list pyval :=
  flat_map (fun example =>
              match sft_try example with
              | Ok sft_format => [sft_format]
              | Raise _ => []
              end) examples.

(** The exceptions raised in the [try] block on a split, each with the
    position (from 1) of its record in the split. *)
Fixpoint sft_failures (position : nat) (examples : list pyval)
  : list (nat * pyerr) :=
  match examples with
  | [] => []
  | example :: rest =>
      match sft_try example with
      | Ok _ => sft_failures (S position) rest
      | Raise e => (position, e) :: sft_failures (S position) rest
      end
  end.

(** [room] levels of lists and dicts are enough for [obj]. *)
Fixpoint fits (room : nat) (obj : pyval) {struct obj} : bool :=
  match obj with
  | PList l =>
      match room with
      | O => false
      | S room' => forallb (fits room') l
      end
  | PDict d =>
      match room with
      | O => false
      | S room' => forallb (fun kv => fits room' (snd kv)) d
      end
  | PNone | PBool _ | PInt _ | PStr _ => true
  end.

(** No integer of [obj] has too many digits. *)
Fixpoint small_ints (obj : pyval) : bool :=
  match obj with
  | PInt z => negb (too_many_digits z)
  | PList l => forallb small_ints l
  | PDict d => forallb (fun kv => small_ints (snd kv)) d
  | PNone | PBool _ | PStr _ => true
  end.

(** Values nested at most 400 deep: far from the depth at which the
    encoder or the decoder of any interpreter gives up. *)
Definition shallow (obj : pyval) : bool := fits 400 obj.






(** The errors a run printed, each with the number printed with it. *)
Definition printed_errors (out : list stdout_line) : list (nat * pyerr) :=
  flat_map (fun line =>
              match line with
              | ErrorProcessing n e => [(n, e)]
              | _ => []
              end) out.

(** The Preference Formatter over the rows of one split. *)
Definition format_split (dataset : pyval) (split : pystr)
  : result (list pyval) :=
  rows <- getitem dataset split ;;
  examples <- iterate rows ;;
  traverse preference_format examples.

(** A RawExample through the formatters of the specification, as Python
    objects. *)
Definition preference_of (r : RawExample) : pyval :=
  py_of_preference (PreferenceFormat r).

Definition supervised_of (r : RawExample) : pyval :=
  py_of_supervised (SupervisedFormat (PreferenceFormat r)).

(** The printable ASCII characters, space to tilde. *)
Definition printable (c : N) : Prop := (32 <= c <= 126)%N.

(** *** Strings and values that survive the JSON text *)

(** The code points of Python: [chr] is defined below 0x110000. *)
Definition is_code_point (c : N) : bool := (c <? 1114112)%N.

(** No high surrogate with a low surrogate right after it. *)
Fixpoint no_surrogate_pair (s : pystr) : bool :=
  match s with
  | a :: (b :: _) as rest =>
      negb (is_high_surrogate a && is_low_surrogate b)
      && no_surrogate_pair rest
  | _ => true
  end.

Definition str_safe (s : pystr) : bool :=
  forallb is_code_point s && no_surrogate_pair s.

(** Whether the decoder, having read an escape, would take the text [t]
    that follows for the second half of a surrogate pair (or fail on it). *)
Definition joins (t : pystr) : bool :=
  match t with
  | b :: u :: l1 :: l2 :: l3 :: l4 :: _ =>
      (b =? 92)%N && (u =? 117)%N
      && match decode_hex4 l1 l2 l3 l4 with
         | Some uni2 => is_low_surrogate uni2
         | None => true
         end
  | b :: u :: _ => (b =? 92)%N && (u =? 117)%N
  | _ => false
  end.

(** A PreferenceRecord all of whose message contents are [str_safe]. *)
Definition messages_safe (l : list ChatMessage) : bool :=
  forallb (fun m => str_safe (content m)) l.

Definition preference_safe (p : PreferenceRecord) : bool :=
  messages_safe (input_messages p)
  && messages_safe (preferred_output p)
  && messages_safe (non_preferred_output p).

(** Whether [k] is a key of [d], and whether no key of [d] is repeated. *)
Fixpoint has_key (k : pystr) (d : pydict) : bool :=
  match d with
  | [] => false
  | (k', _) :: d' => pystr_eqb k k' || has_key k d'
  end.

Fixpoint distinct_keys (d : pydict) : bool :=
  match d with
  | [] => true
  | (k, _) :: d' => negb (has_key k d') && distinct_keys d'
  end.

(** The values equal to what [json.loads] reads from their text: the
    strings and the keys are as [str_safe] says, no dict repeats a key, and
    the integers have at most 4300 digits (the bound from which CPython
    3.11 and later refuse the conversion between [int] and [str]; the
    embedding itself has no such bound). *)
Fixpoint json_safe (v : pyval) : bool :=
  match v with
  | PNone | PBool _ => true
  | PInt z => (Z.abs z <? 10 ^ 4300)%Z
  | PStr s => str_safe s
  | PList l => forallb json_safe l
  | PDict d =>
      forallb (fun kv => str_safe (fst kv) && json_safe (snd kv)) d
      && distinct_keys d
  end.

(** What may follow a value in a JSON text: nothing, white space, a comma
    or a closing bracket or brace. *)
Definition delimited (rest : pystr) : bool :=
  match rest with
  | [] => true
  | c :: _ =>
      is_whitespace c || (c =? 44)%N || (c =? 93)%N || (c =? 125)%N
  end.

(** [scan] reads the text of [v] back, whatever delimited text follows. *)
Definition reads_back (scan : pystr -> result (pyval * pystr)) (v : pyval)
  : Prop :=
  forall rest, delimited rest = true ->
    scan (json_dumps v ++ rest) = Ok (v, rest).

(** The text of a list after its first element, and of a dict after its
    first member, up to what follows the closing bracket or brace. *)
Fixpoint array_tail (l : list pyval) (rest : pystr) : pystr :=
  match l with
  | [] => 93%N :: rest
  | x :: l' => item_separator ++ json_dumps x ++ array_tail l' rest
  end.

(** A member of a dict as [json.dumps] writes it, and the same without the
    opening quote of its key. *)
Definition member (kv : pystr * pyval) : pystr :=
  encode_basestring_ascii (fst kv) ++ key_separator ++ json_dumps (snd kv).

Definition member_text (kv : pystr * pyval) : pystr :=
  flat_map encode_char (fst kv) ++ 34%N :: key_separator
  ++ json_dumps (snd kv).

Fixpoint object_tail (d : pydict) (rest : pystr) : pystr :=
  match d with
  | [] => 125%N :: rest
  | kv :: d' => item_separator ++ 34%N :: member_text kv ++ object_tail d' rest
  end.

(** The two halves [encode_char] writes for a code point above 0xFFFF. *)
Definition high_half (c : N) : N :=
  N.lor 55296 (N.land (N.shiftr (c - 65536) 10) 1023).

Definition low_half (c : N) : N :=
  N.lor 56320 (N.land (c - 65536) 1023).

(** A file is the concatenation of the writes; its lines are counted by
    its line feeds. *)
Definition file_contents (writes : list pystr) : pystr := concat writes.

Definition count_lines (file : pystr) : nat := count_occ N.eq_dec file 10%N.

(** The supervised conversion of [input_data[split]] went through without
    a failure: it returned the count [n] and wrote the [n] supervised
    records of the RawExamples [rs], one per line. *)
Definition sft_split_written (input_data : pyval) (output_path split : pystr)
    (n : nat) (rs : list RawExample) : Prop :=
  exists run,
    process_preference_to_sft input_data output_path split = Ok run
    /\ printed_errors (stdout run) = []
    /\ line_count run = n
    /\ outfile run = write_jsonl (map supervised_of rs)
    /\ length (outfile run) = n
    /\ count_lines (file_contents (outfile run)) = n.

(* ================================================================== *)
(** ** The sample read back from the supervised file *)
(* ================================================================== *)










(* ================================================================== *)
(** ** Properties *)
(* ================================================================== *)

Lemma pystr_eqb_refl (a : pystr) : pystr_eqb a a = true.
Proof.
  induction a as [|x a IH]; simpl; [reflexivity|].
  now rewrite N.eqb_refl, IH.
Qed.

Lemma pystr_eqb_eq (a b : pystr) : pystr_eqb a b = true <-> a = b.
Proof.
  split.
  - revert b; induction a as [|x a IH]; intros [|y b]; simpl; try discriminate.
    + reflexivity.
    + intros H. apply andb_true_iff in H as [Hx Hr].
      apply N.eqb_eq in Hx. apply IH in Hr. congruence.
  - intros ->. apply pystr_eqb_refl.
Qed.

Lemma getitem_dict (d : pydict) (k : pystr) (v : pyval) :
  dict_get k d = Some v -> getitem (PDict d) k = Ok v.
Proof. intros H. simpl. now rewrite H. Qed.

(** The loop [for msg in ..: messages.append(msg)] copies the list. *)
Lemma append_loop (l acc : list pyval) :
  fold_left (fun messages msg => messages ++ [msg]) l acc = acc ++ l.
Proof.
  revert acc; induction l as [|x l IH]; intros acc; simpl.
  - now rewrite app_nil_r.
  - rewrite IH, <- app_assoc. reflexivity.
Qed.

(* ------------------------------------------------------------------ *)
(** *** The Preference Formatter on one example *)

(** Whatever the three fields hold, they are placed unchanged. *)
Lemma preference_format_fields (row : pydict) (p c r : pyval) :
  dict_get K_prompt row = Some p ->
  dict_get K_chosen_response row = Some c ->
  dict_get K_rejected_response row = Some r ->
  preference_format (PDict row) =
  Ok (PDict [(K_input, PDict [(K_messages, PList [message K_user p])]);
             (K_preferred_output, PList [message K_assistant c]);
             (K_non_preferred_output, PList [message K_assistant r])]).
Proof.
  intros Hp Hc Hr. unfold preference_format.
  rewrite (getitem_dict _ _ _ Hp), (getitem_dict _ _ _ Hc),
          (getitem_dict _ _ _ Hr).
  reflexivity.
Qed.

Lemma view_raw_fields (row : pyval) (r : RawExample) :
  view_raw row = Some r ->
  exists d, row = PDict d
    /\ dict_get K_prompt d = Some (PStr (prompt r))
    /\ dict_get K_chosen_response d = Some (PStr (chosen_response r))
    /\ dict_get K_rejected_response d = Some (PStr (rejected_response r)).
Proof.
  unfold view_raw, view_string_field, view_field.
  destruct row as [| | | |l|d]; try discriminate.
  destruct (dict_get K_prompt d) as [[| | |p| |]|] eqn:Hp; try discriminate.
  destruct (dict_get K_chosen_response d) as [[| | |c| |]|] eqn:Hc;
    try discriminate.
  destruct (dict_get K_rejected_response d) as [[| | |x| |]|] eqn:Hr;
    try discriminate.
  simpl. intros [= <-]. exists d. simpl. auto.
Qed.

(** The embedded formatter refines the specification's [PreferenceFormat]. *)
Lemma preference_format_refines (row : pyval) (r : RawExample) :
  view_raw row = Some r ->
  preference_format row = Ok (py_of_preference (PreferenceFormat r)).
Proof.
  intros H. destruct (view_raw_fields _ _ H) as (d & -> & Hp & Hc & Hr).
  now rewrite (preference_format_fields _ _ _ _ Hp Hc Hr).
Qed.

Lemma view_raw_py_of_raw (r : RawExample) : view_raw (py_of_raw r) = Some r.
Proof. destruct r; reflexivity. Qed.

(** C1: for every dataset row whose fields [prompt], [chosen_response] and
    [rejected_response] hold the strings [p], [c] and [r], the Preference
    Formatter produces exactly the record
    [{input: {messages: [{role: user, content: p}]},
      preferred_output: [{role: assistant, content: c}],
      non_preferred_output: [{role: assistant, content: r}]}]:
    one message per list, the roles fixed, the three strings unchanged. *)
Theorem C1_preference_format_exact (row : pydict) (p c r : pystr) :
  dict_get K_prompt row = Some (PStr p) ->
  dict_get K_chosen_response row = Some (PStr c) ->
  dict_get K_rejected_response row = Some (PStr r) ->
  preference_format (PDict row) =
  Ok (PDict
        [(K_input,
          PDict [(K_messages,
                  PList [PDict [(K_role, PStr K_user);
                                (K_content, PStr p)]])]);
         (K_preferred_output,
          PList [PDict [(K_role, PStr K_assistant); (K_content, PStr c)]]);
         (K_non_preferred_output,
          PList [PDict [(K_role, PStr K_assistant); (K_content, PStr r)]])]).
Proof.
  intros Hp Hc Hr. exact (preference_format_fields _ _ _ _ Hp Hc Hr).
Qed.

Lemma C1_preference_format_exact_witness :
  preference_format
    (PDict [(K_prompt, PStr (of_string "c#"));
            (K_chosen_response, PStr (of_string "A"));
            (K_rejected_response, PStr (of_string "B"))]) =
  Ok (PDict
        [(K_input,
          PDict [(K_messages,
                  PList [PDict [(K_role, PStr K_user);
                                (K_content, PStr (of_string "c#"))]])]);
         (K_preferred_output,
          PList [PDict [(K_role, PStr K_assistant);
                        (K_content, PStr (of_string "A"))]]);
         (K_non_preferred_output,
          PList [PDict [(K_role, PStr K_assistant);
                        (K_content, PStr (of_string "B"))]])]).
Proof.
  apply C1_preference_format_exact; reflexivity.
Defined.

(** C7: a row whose three fields are strings, the empty string included,
    is converted without an exception, and the record read back from the
    result is well formed and holds the three strings as they were. *)
Theorem C7_empty_strings_pass_through (row : pydict) (p c r : pystr) :
  dict_get K_prompt row = Some (PStr p) ->
  dict_get K_chosen_response row = Some (PStr c) ->
  dict_get K_rejected_response row = Some (PStr r) ->
  exists record,
    preference_format (PDict row) = Ok record
    /\ view_preference record =
       Some {| input_messages := [{| msg_role := user; content := p |}];
               preferred_output :=
                 [{| msg_role := assistant; content := c |}];
               non_preferred_output :=
                 [{| msg_role := assistant; content := r |}] |}
    /\ (forall q, view_preference record = Some q -> well_formed q = true).
Proof.
  intros Hp Hc Hr. eexists. split; [|split].
  - exact (preference_format_fields _ _ _ _ Hp Hc Hr).
  - reflexivity.
  - intros q [= <-]. reflexivity.
Qed.

Lemma C7_empty_strings_pass_through_witness :
  exists record,
    preference_format
      (PDict [(K_prompt, PStr []); (K_chosen_response, PStr []);
              (K_rejected_response, PStr [])]) = Ok record
    /\ view_preference record =
       Some {| input_messages := [{| msg_role := user; content := [] |}];
               preferred_output :=
                 [{| msg_role := assistant; content := [] |}];
               non_preferred_output :=
                 [{| msg_role := assistant; content := [] |}] |}
    /\ (forall q, view_preference record = Some q -> well_formed q = true).
Proof.
  apply C7_empty_strings_pass_through; reflexivity.
Defined.

(* ------------------------------------------------------------------ *)
(** *** The Supervised Formatter on one record *)

(** The formatter reads two things of [data] and nothing else. *)
Lemma sft_format_reads (data : pyval) :
  convert_preference_to_sft_format data =
  (input <- getitem data K_input ;;
   input_messages <- getitem input K_messages ;;
   msgs <- iterate input_messages ;;
   preferred_output <- getitem data K_preferred_output ;;
   extension <- iterate preferred_output ;;
   Ok (PDict [(K_messages, PList (msgs ++ extension))])).
Proof.
  unfold convert_preference_to_sft_format.
  destruct (getitem data K_input) as [input|]; [simpl|reflexivity].
  destruct (getitem input K_messages) as [ims|]; [simpl|reflexivity].
  destruct (iterate ims) as [msgs|]; [simpl|reflexivity].
  now rewrite append_loop.
Qed.

Lemma sft_format_iterables (data input ims po : pyval)
    (msgs extension : list pyval) :
  getitem data K_input = Ok input ->
  getitem input K_messages = Ok ims ->
  iterate ims = Ok msgs ->
  getitem data K_preferred_output = Ok po ->
  iterate po = Ok extension ->
  convert_preference_to_sft_format data =
  Ok (PDict [(K_messages, PList (msgs ++ extension))]).
Proof.
  intros H1 H2 H3 H4 H5. rewrite sft_format_reads.
  rewrite H1; simpl. rewrite H2; simpl. rewrite H3; simpl.
  rewrite H4; simpl. rewrite H5; simpl. reflexivity.
Qed.

Lemma sft_format_lists (d input : pydict) (msgs preferred : list pyval) :
  dict_get K_input d = Some (PDict input) ->
  dict_get K_messages input = Some (PList msgs) ->
  dict_get K_preferred_output d = Some (PList preferred) ->
  convert_preference_to_sft_format (PDict d) =
  Ok (PDict [(K_messages, PList (msgs ++ preferred))]).
Proof.
  intros Hi Hm Hp.
  apply sft_format_iterables with (input := PDict input) (ims := PList msgs)
                                  (po := PList preferred);
    auto using getitem_dict.
Qed.

(** The embedded formatter refines the specification's [SupervisedFormat]. *)
Lemma sft_format_refines (p : PreferenceRecord) :
  convert_preference_to_sft_format (py_of_preference p) =
  Ok (py_of_supervised (SupervisedFormat p)).
Proof.
  unfold py_of_preference.
  erewrite sft_format_lists; try reflexivity.
  unfold py_of_supervised, py_of_messages, SupervisedFormat; simpl.
  now rewrite map_app.
Qed.

(** C2: for a record [data] whose [input.messages] is the list [msgs] and
    whose [preferred_output] is the list [preferred], the Supervised
    Formatter returns [{messages: msgs ++ preferred}], in that order and
    without [non_preferred_output]; when [preferred] has one element the
    result has [length msgs + 1] messages. *)
Theorem C2_sft_format_concatenates (data input : pydict)
    (msgs preferred : list pyval) :
  dict_get K_input data = Some (PDict input) ->
  dict_get K_messages input = Some (PList msgs) ->
  dict_get K_preferred_output data = Some (PList preferred) ->
  convert_preference_to_sft_format (PDict data) =
    Ok (PDict [(K_messages, PList (msgs ++ preferred))])
  /\ (length preferred = 1 -> length (msgs ++ preferred) = length msgs + 1).
Proof.
  intros Hi Hm Hp. split.
  - exact (sft_format_lists _ _ _ _ Hi Hm Hp).
  - intros H1. rewrite length_app. lia.
Qed.

Lemma C2_sft_format_concatenates_witness :
  let u := message K_user (PStr (of_string "c#")) in
  let a := message K_assistant (PStr (of_string "A")) in
  let b := message K_assistant (PStr (of_string "B")) in
  convert_preference_to_sft_format
    (PDict [(K_input, PDict [(K_messages, PList [u])]);
            (K_preferred_output, PList [a]);
            (K_non_preferred_output, PList [b])]) =
    Ok (PDict [(K_messages, PList ([u] ++ [a]))])
  /\ (length [a] = 1 -> length ([u] ++ [a]) = length [u] + 1).
Proof.
  intros u a b.
  apply C2_sft_format_concatenates with (input := [(K_messages, PList [u])]);
    reflexivity.
Defined.

(** C6: two records that agree on [input] and on [preferred_output] get
    the same outcome from the Supervised Formatter, the same record or the
    same exception, whatever their [non_preferred_output] (and any other
    field) may be. *)
Theorem C6_rejected_side_not_read (d1 d2 : pydict) :
  dict_get K_input d1 = dict_get K_input d2 ->
  dict_get K_preferred_output d1 = dict_get K_preferred_output d2 ->
  convert_preference_to_sft_format (PDict d1) =
  convert_preference_to_sft_format (PDict d2).
Proof.
  intros Hi Hp. rewrite !sft_format_reads. simpl. now rewrite Hi, Hp.
Qed.

Lemma C6_rejected_side_not_read_witness :
  let u := message K_user (PStr (of_string "c#")) in
  let a := message K_assistant (PStr (of_string "A")) in
  convert_preference_to_sft_format
    (PDict [(K_input, PDict [(K_messages, PList [u])]);
            (K_preferred_output, PList [a]);
            (K_non_preferred_output,
             PList [message K_assistant (PStr (of_string "B"))])]) =
  convert_preference_to_sft_format
    (PDict [(K_input, PDict [(K_messages, PList [u])]);
            (K_preferred_output, PList [a]);
            (K_non_preferred_output, PNone)]).
Proof.
  intros u a. apply C6_rejected_side_not_read; reflexivity.
Defined.

(** Every record the formatter returns is a dict with the one key
    [messages]. *)
Lemma sft_format_shape (data s : pyval) :
  convert_preference_to_sft_format data = Ok s ->
  exists l, s = PDict [(K_messages, PList l)].
Proof.
  rewrite sft_format_reads.
  destruct (getitem data K_input) as [input|]; [simpl|discriminate].
  destruct (getitem input K_messages) as [ims|]; [simpl|discriminate].
  destruct (iterate ims) as [msgs|]; [simpl|discriminate].
  destruct (getitem data K_preferred_output) as [po|]; [simpl|discriminate].
  destruct (iterate po) as [ext|]; [simpl|discriminate].
  intros [= <-]. now eexists.
Qed.

(** C9: applied to a SupervisedRecord, a dict with the one key [messages],
    the Supervised Formatter returns no record: the lookup of [input]
    raises [KeyError]. *)
Theorem C9_sft_format_not_iterable (msgs : pyval) :
  convert_preference_to_sft_format (PDict [(K_messages, msgs)]) =
  Raise (KeyError K_input).
Proof. reflexivity. Qed.

(** In particular the formatter fails on each of its own results. *)
Lemma sft_format_twice (data s : pyval) :
  convert_preference_to_sft_format data = Ok s ->
  convert_preference_to_sft_format s = Raise (KeyError K_input).
Proof.
  intros H. destruct (sft_format_shape _ _ H) as [l ->]. reflexivity.
Qed.

(** C3 (as stated, refuted): a record whose [preferred_output] is the empty
    list, and one whose [preferred_output] has two messages, are both
    converted; no exception is raised. *)
Lemma C3_counterexample :
  let u := message K_user (PStr (of_string "c#")) in
  let a := message K_assistant (PStr (of_string "A")) in
  let b := message K_assistant (PStr (of_string "B")) in
  convert_preference_to_sft_format
    (PDict [(K_input, PDict [(K_messages, PList [u])]);
            (K_preferred_output, PList [])]) =
    Ok (PDict [(K_messages, PList [u])])
  /\ convert_preference_to_sft_format
       (PDict [(K_input, PDict [(K_messages, PList [u])]);
               (K_preferred_output, PList [a; b])]) =
     Ok (PDict [(K_messages, PList [u; a; b])]).
Proof. split; reflexivity. Qed.

(** C3 (amended): the Supervised Formatter raises exactly when
    [data["input"]["messages"]] or [data["preferred_output"]] is absent or
    holds something that cannot be iterated; every other record is
    converted, with no check on the number of elements. *)
Theorem C3_sft_format_fails_iff_unreadable (data : pyval) :
  is_ok (convert_preference_to_sft_format data) = sft_readable data.
Proof.
  rewrite sft_format_reads. unfold sft_readable, iterable.
  destruct (getitem data K_input) as [input|]; [simpl|reflexivity].
  destruct (getitem input K_messages) as [ims|]; [simpl|reflexivity].
  destruct (iterate ims) as [msgs|]; [simpl|reflexivity].
  destruct (getitem data K_preferred_output) as [po|]; [simpl|reflexivity].
  destruct (iterate po) as [ext|]; reflexivity.
Qed.

(** Lists of any length are readable. *)
Lemma sft_readable_lists (d input : pydict) (msgs preferred : list pyval) :
  dict_get K_input d = Some (PDict input) ->
  dict_get K_messages input = Some (PList msgs) ->
  dict_get K_preferred_output d = Some (PList preferred) ->
  sft_readable (PDict d) = true.
Proof.
  intros Hi Hm Hp. unfold sft_readable, iterable.
  rewrite (getitem_dict _ _ _ Hi), (getitem_dict _ _ _ Hp). simpl.
  rewrite Hm. reflexivity.
Qed.

(** The absent fields, each with the exception it raises. *)
Lemma sft_format_missing_input (d : pydict) :
  dict_get K_input d = None ->
  convert_preference_to_sft_format (PDict d) = Raise (KeyError K_input).
Proof. intros H. rewrite sft_format_reads. simpl. now rewrite H. Qed.

Lemma sft_format_missing_messages (d input : pydict) :
  dict_get K_input d = Some (PDict input) ->
  dict_get K_messages input = None ->
  convert_preference_to_sft_format (PDict d) = Raise (KeyError K_messages).
Proof.
  intros Hi Hm. rewrite sft_format_reads. simpl. rewrite Hi. simpl.
  now rewrite Hm.
Qed.

Lemma sft_format_missing_preferred (d input : pydict) (msgs : list pyval) :
  dict_get K_input d = Some (PDict input) ->
  dict_get K_messages input = Some (PList msgs) ->
  dict_get K_preferred_output d = None ->
  convert_preference_to_sft_format (PDict d) =
  Raise (KeyError K_preferred_output).
Proof.
  intros Hi Hm Hp. rewrite sft_format_reads. simpl. rewrite Hi. simpl.
  rewrite Hm. simpl. now rewrite Hp.
Qed.

(* ------------------------------------------------------------------ *)
(** *** The conversion of the whole dataset *)

Lemma dict_get_set_same (k : pystr) (v : pyval) (d : pydict) :
  dict_get k (dict_set k v d) = Some v.
Proof.
  induction d as [|[k' v'] d IH]; simpl.
  - now rewrite pystr_eqb_refl.
  - destruct (pystr_eqb k k') eqn:E; simpl; rewrite E; auto.
Qed.

Lemma dict_set_twice (k : pystr) (v w : pyval) (d : pydict) :
  dict_set k w (dict_set k v d) = dict_set k w d.
Proof.
  induction d as [|[k' v'] d IH]; simpl.
  - now rewrite pystr_eqb_refl.
  - destruct (pystr_eqb k k') eqn:E; simpl; rewrite E; [|rewrite IH];
      reflexivity.
Qed.

Lemma dict_set_same (k : pystr) (v : pyval) (d : pydict) :
  dict_get k d = Some v -> dict_set k v d = d.
Proof.
  induction d as [|[k' v'] d IH]; simpl; [discriminate|].
  destruct (pystr_eqb k k') eqn:E.
  - now intros [= ->].
  - intros H. now rewrite IH.
Qed.

(** The inner loop appends the converted examples to the list of its
    split, or stops at the first example that raises. *)
Lemma inner_loop (split : pystr) (examples : list pyval) :
  forall (converted : pydict) (acc : list pyval),
    dict_get split converted = Some (PList acc) ->
    for_each (fun converted example =>
                record <- preference_format example ;;
                append_to_split split converted record)
             examples converted =
    (records <- traverse preference_format examples ;;
     Ok (dict_set split (PList (acc ++ records)) converted)).
Proof.
  induction examples as [|example examples IH]; intros converted acc Hacc.
  - simpl. now rewrite app_nil_r, (dict_set_same _ _ _ Hacc).
  - simpl. destruct (preference_format example) as [record|e]; simpl;
      [|reflexivity].
    unfold append_to_split at 1. simpl. rewrite Hacc. simpl.
    rewrite (IH _ (acc ++ [record])) by apply dict_get_set_same.
    destruct (traverse preference_format examples) as [records|e]; simpl;
      [|reflexivity].
    now rewrite dict_set_twice, <- app_assoc.
Qed.

Lemma convert_split_eq (dataset : pyval) (split : pystr)
    (converted : pydict) (acc : list pyval) :
  dict_get split converted = Some (PList acc) ->
  convert_split dataset converted split =
  (records <- format_split dataset split ;;
   Ok (dict_set split (PList (acc ++ records)) converted)).
Proof.
  intros Hacc. unfold convert_split, format_split.
  destruct (getitem dataset split) as [rows|]; [simpl|reflexivity].
  destruct (iterate rows) as [examples|]; [simpl|reflexivity].
  now apply inner_loop.
Qed.

(** The function as a whole: the train split, then the validation split,
    and a result only when both went through. *)
Lemma convert_to_preference_dataset_eq (dataset : pyval) :
  convert_to_preference_dataset dataset =
  (train <- format_split dataset K_train ;;
   validation <- format_split dataset K_validation ;;
   Ok (PDict [(K_train, PList train); (K_validation, PList validation)])).
Proof.
  unfold convert_to_preference_dataset. simpl.
  rewrite (convert_split_eq dataset K_train _ []) by reflexivity.
  destruct (format_split dataset K_train) as [train|]; [simpl|reflexivity].
  rewrite (convert_split_eq dataset K_validation _ []) by reflexivity.
  destruct (format_split dataset K_validation) as [validation|];
    reflexivity.
Qed.

Lemma traverse_raises {A B} (f : A -> result B) (xs : list A) (x : A) :
  In x xs -> is_ok (f x) = false -> is_ok (traverse f xs) = false.
Proof.
  induction xs as [|y xs IH]; simpl; [tauto|].
  intros [->|Hin] Hx.
  - destruct (f x); [discriminate|reflexivity].
  - destruct (f y); [simpl|reflexivity].
    specialize (IH Hin Hx). destruct (traverse f xs); [discriminate|].
    reflexivity.
Qed.

Lemma traverse_length {A B} (f : A -> result B) (xs : list A) (ys : list B) :
  traverse f xs = Ok ys -> length ys = length xs.
Proof.
  revert ys; induction xs as [|x xs IH]; simpl; intros ys.
  - now intros [= <-].
  - destruct (f x); [simpl|discriminate].
    destruct (traverse f xs) as [r|]; [simpl|discriminate].
    intros [= <-]. simpl. now rewrite (IH r).
Qed.

Lemma traverse_nth {A B} (f : A -> result B) (xs : list A) (ys : list B) :
  traverse f xs = Ok ys ->
  forall i x, nth_error xs i = Some x ->
    exists y, f x = Ok y /\ nth_error ys i = Some y.
Proof.
  revert ys; induction xs as [|x0 xs IH]; simpl; intros ys H i x Hi.
  - destruct i; discriminate.
  - destruct (f x0) as [y0|] eqn:E0; [simpl in H|discriminate].
    destruct (traverse f xs) as [r|]; [simpl in H|discriminate].
    injection H as <-. destruct i as [|i]; simpl in *.
    + injection Hi as <-. eauto.
    + eauto.
Qed.

Lemma format_split_raises (dataset rows : pyval) (split : pystr)
    (examples : list pyval) (example : pyval) :
  getitem dataset split = Ok rows ->
  iterate rows = Ok examples ->
  In example examples ->
  is_ok (preference_format example) = false ->
  is_ok (format_split dataset split) = false.
Proof.
  intros Hr Hi Hin Hf. unfold format_split. rewrite Hr; simpl.
  rewrite Hi; simpl. eapply traverse_raises; eauto.
Qed.

Lemma convert_needs_both_splits (dataset : pyval) :
  is_ok (format_split dataset K_train) = false
  \/ is_ok (format_split dataset K_validation) = false ->
  is_ok (convert_to_preference_dataset dataset) = false.
Proof.
  rewrite convert_to_preference_dataset_eq.
  destruct (format_split dataset K_train); simpl.
  - intros [H|H]; [discriminate|].
    destruct (format_split dataset K_validation); [discriminate|reflexivity].
  - reflexivity.
Qed.

(** C10: the conversion to the preference format returns a dataset only
    when everything went through.  If [dataset] has no [train] or no
    [validation] split, or if one example of either split makes the
    formatter raise, the call as a whole raises: nothing is returned, for
    either split. *)
Theorem C10_preference_conversion_all_or_nothing (dataset : pyval) :
  (forall split,
      split = K_train \/ split = K_validation ->
      is_ok (getitem dataset split) = false ->
      exists e, convert_to_preference_dataset dataset = Raise e)
  /\ (forall split rows examples example,
        split = K_train \/ split = K_validation ->
        getitem dataset split = Ok rows ->
        iterate rows = Ok examples ->
        In example examples ->
        is_ok (preference_format example) = false ->
        exists e, convert_to_preference_dataset dataset = Raise e).
Proof.
  assert (Hraise : is_ok (convert_to_preference_dataset dataset) = false ->
                   exists e, convert_to_preference_dataset dataset = Raise e).
  { destruct (convert_to_preference_dataset dataset);
      [discriminate|eauto]. }
  split.
  - intros split Hs Hg. apply Hraise, convert_needs_both_splits.
    assert (is_ok (format_split dataset split) = false) as H.
    { unfold format_split. destruct (getitem dataset split);
        [discriminate|reflexivity]. }
    destruct Hs as [-> | ->]; auto.
  - intros split rows examples example Hs Hr Hi Hin Hf.
    apply Hraise, convert_needs_both_splits.
    pose proof (format_split_raises _ _ _ _ _ Hr Hi Hin Hf) as H.
    destruct Hs as [-> | ->]; auto.
Qed.

Lemma C10_preference_conversion_all_or_nothing_witness :
  let good := PDict [(K_prompt, PStr (of_string "c#"));
                     (K_chosen_response, PStr (of_string "A"));
                     (K_rejected_response, PStr (of_string "B"))] in
  let bad := PDict [(K_prompt, PStr (of_string "c#"));
                    (K_chosen_response, PStr (of_string "A"))] in
  (exists e,
      convert_to_preference_dataset (PDict [(K_train, PList [good])])
      = Raise e)
  /\ (exists e,
         convert_to_preference_dataset
           (PDict [(K_train, PList [good; good]);
                   (K_validation, PList [good; bad])]) = Raise e).
Proof.
  intros good bad. split.
  - apply (proj1 (C10_preference_conversion_all_or_nothing
                    (PDict [(K_train, PList [good])])) K_validation).
    + right; reflexivity.
    + reflexivity.
  - apply (proj2 (C10_preference_conversion_all_or_nothing
                    (PDict [(K_train, PList [good; good]);
                            (K_validation, PList [good; bad])]))
                 K_validation (PList [good; bad]) [good; bad] bad).
    + right; reflexivity.
    + reflexivity.
    + reflexivity.
    + simpl; auto.
    + reflexivity.
Defined.

(* ------------------------------------------------------------------ *)
(** *** Induction on Python values *)

Lemma pyval_ind (P : pyval -> Prop) :
  P PNone ->
  (forall b, P (PBool b)) ->
  (forall z, P (PInt z)) ->
  (forall s, P (PStr s)) ->
  (forall l, Forall P l -> P (PList l)) ->
  (forall d, Forall (fun kv => P (snd kv)) d -> P (PDict d)) ->
  forall v, P v.
Proof.
  intros HN HB HI HS HL HD.
  fix IH 1.
  intros [| b | z | s | l | d];
    [exact HN | apply HB | apply HI | apply HS | | ].
  - apply HL. induction l as [|x l IHl]; constructor; [apply IH | exact IHl].
  - apply HD. induction d as [|[k x] d IHd]; constructor;
      [apply IH | exact IHd].
Qed.

(* ------------------------------------------------------------------ *)
(** *** Where the output file can be opened *)








(* ------------------------------------------------------------------ *)
(** *** The values [json.dumps] encodes *)

Lemma fits_mono (obj : pyval) :
  forall room room',
    fits room obj = true -> room <= room' -> fits room' obj = true.
Proof.
  induction obj as [| b | z | s | l IH | d IH] using pyval_ind;
    intros room room' Hf Hle; try reflexivity.
  - destruct room as [|room]; [now cbn [fits] in *|].
    destruct room' as [|room']; [lia|]. cbn [fits] in *.
    rewrite forallb_forall in *. rewrite Forall_forall in IH.
    intros x Hx. apply (IH x Hx room); [now apply Hf|lia].
  - destruct room as [|room]; [now cbn [fits] in *|].
    destruct room' as [|room']; [lia|]. cbn [fits] in *.
    rewrite forallb_forall in *. rewrite Forall_forall in IH.
    intros x Hx. apply (IH x Hx room); [now apply Hf|lia].
Qed.

Lemma first_raised_all {A} (f : A -> option pyerr) (ok : A -> bool)
    (l : list A) :
  Forall (fun x => f x = if ok x then None else Some ValueError) l ->
  first_raised (map f l) = if forallb ok l then None else Some ValueError.
Proof.
  induction 1 as [|x l Hx _ IH]; [reflexivity|].
  cbn [map first_raised forallb]. rewrite Hx.
  destruct (ok x); [exact IH|reflexivity].
Qed.

(** Where the nesting is within the room, the encoder raises exactly for
    an integer of too many digits. *)
Lemma json_dumps_raises_fits (obj : pyval) :
  forall room,
    fits room obj = true ->
    json_dumps_raises_in room obj =
    if small_ints obj then None else Some ValueError.
Proof.
  induction obj as [| b | z | s | l IH | d IH] using pyval_ind;
    intros room Hf; try reflexivity.
  - cbn [json_dumps_raises_in small_ints].
    now destruct (too_many_digits z).
  - destruct room as [|room]; [now cbn [fits] in *|].
    cbn [fits json_dumps_raises_in small_ints] in *.
    apply first_raised_all. rewrite forallb_forall in Hf.
    rewrite Forall_forall in *. intros x Hx. now apply IH, Hf.
  - destruct room as [|room]; [now cbn [fits] in *|].
    cbn [fits json_dumps_raises_in small_ints] in *.
    apply (first_raised_all
             (fun kv => json_dumps_raises_in room (snd kv))
             (fun kv => small_ints (snd kv))).
    rewrite forallb_forall in Hf.
    rewrite Forall_forall in *. intros x Hx. now apply IH, Hf.
Qed.

Lemma shallow_fits (obj : pyval) :
  shallow obj = true -> fits recursion_room obj = true.
Proof.
  intros H. apply (fits_mono obj 400); [exact H|].
  apply Nat.leb_le. reflexivity.
Qed.

(** [json.dumps] on a shallow value. *)
Lemma dumps_shallow (obj : pyval) :
  shallow obj = true ->
  dumps obj =
  if small_ints obj then Ok (json_dumps obj) else Raise ValueError.
Proof.
  intros H. unfold dumps, json_dumps_raises.
  rewrite (json_dumps_raises_fits _ _ (shallow_fits _ H)).
  now destruct (small_ints obj).
Qed.

Lemma json_safe_small_ints (obj : pyval) :
  json_safe obj = true -> small_ints obj = true.
Proof.
  induction obj as [| b | z | s | l IH | d IH] using pyval_ind;
    intros Hs; try reflexivity.
  - cbn [json_safe small_ints] in *. unfold too_many_digits.
    now rewrite Z.leb_antisym, Hs.
  - cbn [json_safe small_ints] in *. rewrite forallb_forall in *.
    rewrite Forall_forall in IH. intros x Hx. now apply IH, Hs.
  - cbn [json_safe small_ints] in *.
    apply andb_true_iff in Hs as [Hs _]. rewrite forallb_forall in *.
    rewrite Forall_forall in IH. intros x Hx. apply (IH x Hx).
    specialize (Hs x Hx). now apply andb_true_iff in Hs as [_ Hs].
Qed.


Lemma iterate_small_ints (obj : pyval) (items : list pyval) :
  iterate obj = Ok items ->
  small_ints obj = true ->
  Forall (fun x => small_ints x = true) items.
Proof.
  destruct obj as [| b | z | s | l | d]; try discriminate;
    intros [= <-] Hf.
  - apply Forall_map, Forall_forall. reflexivity.
  - cbn [small_ints] in Hf. rewrite forallb_forall in Hf.
    now apply Forall_forall.
  - apply Forall_map, Forall_forall. reflexivity.
Qed.

Lemma dict_get_in (k : pystr) (d : pydict) (v : pyval) :
  dict_get k d = Some v -> exists k', In (k', v) d.
Proof.
  induction d as [|[k' v'] d IH]; [discriminate|]. cbn [dict_get].
  destruct (pystr_eqb k k').
  - intros [= ->]. exists k'. now left.
  - intros H. destruct (IH H) as [k'' Hin]. exists k''. now right.
Qed.


Lemma getitem_small_ints (obj v : pyval) (k : pystr) :
  getitem obj k = Ok v -> small_ints obj = true -> small_ints v = true.
Proof.
  destruct obj as [| b | z | s | l | d]; try discriminate.
  cbn [getitem]. destruct (dict_get k d) as [x|] eqn:E; [|discriminate].
  intros [= ->] Hf.
  destruct (dict_get_in _ _ _ E) as [k' Hin].
  cbn [small_ints] in Hf. rewrite forallb_forall in Hf. apply (Hf _ Hin).
Qed.

(* ------------------------------------------------------------------ *)
(** *** What [json.dumps] writes is printable ASCII *)

Lemma hex_digit_printable (n : N) : (n < 16)%N -> printable (hex_digit n).
Proof.
  intros H. unfold hex_digit, printable.
  destruct (N.ltb_spec n 10); lia.
Qed.

Lemma u_escape_printable (n : N) : Forall printable (u_escape n).
Proof.
  unfold u_escape.
  repeat constructor; try (unfold printable; lia);
    apply hex_digit_printable; apply N.mod_lt; discriminate.
Qed.

Lemma encode_char_printable (c : N) : Forall printable (encode_char c).
Proof.
  unfold encode_char.
  repeat match goal with
         | |- context [if ?b then _ else _] => destruct b eqn:?
         end;
    try (repeat constructor; unfold printable; lia);
    try apply u_escape_printable.
  - apply andb_true_iff in Heqb1 as [H1 H2].
    apply N.leb_le in H1, H2. repeat constructor; assumption.
  - apply Forall_app; split; apply u_escape_printable.
Qed.

Lemma encode_basestring_ascii_printable (s : pystr) :
  Forall printable (encode_basestring_ascii s).
Proof.
  unfold encode_basestring_ascii.
  apply Forall_app; split; [repeat constructor; unfold printable; lia|].
  apply Forall_app; split; [|repeat constructor; unfold printable; lia].
  induction s as [|c s IH]; simpl; [constructor|].
  apply Forall_app; split; [apply encode_char_printable | exact IH].
Qed.

Lemma digits_of_printable (fuel : nat) :
  forall n acc, Forall printable acc -> Forall printable (digits_of fuel n acc).
Proof.
  induction fuel as [|fuel IH]; intros n acc Hacc; simpl; [exact Hacc|].
  assert (Hd : printable (48 + n mod 10)).
  { unfold printable.
    assert (n mod 10 < 10)%N by (apply N.mod_lt; discriminate).
    generalize dependent (n mod 10)%N. intros; lia. }
  destruct (n <? 10)%N; [|apply IH]; constructor; assumption.
Qed.

Lemma str_of_int_printable (z : Z) : Forall printable (str_of_int z).
Proof.
  destruct z; simpl; unfold str_of_N;
    try (constructor; [unfold printable; lia|]);
    apply digits_of_printable; constructor.
Qed.

Lemma join_printable (sep : pystr) (items : list pystr) :
  Forall printable sep -> Forall (Forall printable) items ->
  Forall printable (join sep items).
Proof.
  intros Hsep Hitems. induction Hitems as [|x items Hx Hitems IH]; simpl.
  - constructor.
  - destruct items as [|y items]; [exact Hx|].
    apply Forall_app; split; [exact Hx|].
    apply Forall_app; split; [exact Hsep | exact IH].
Qed.

Lemma separators_printable :
  Forall printable item_separator /\ Forall printable key_separator.
Proof. split; repeat constructor; unfold printable; lia. Qed.

Lemma json_dumps_printable (obj : pyval) : Forall printable (json_dumps obj).
Proof.
  induction obj as [| [|] | z | s | l IH | d IH] using pyval_ind.
  - repeat constructor; unfold printable; simpl; lia.
  - repeat constructor; unfold printable; simpl; lia.
  - repeat constructor; unfold printable; simpl; lia.
  - apply str_of_int_printable.
  - apply encode_basestring_ascii_printable.
  - cbn [json_dumps].
    apply Forall_app; split; [repeat constructor; unfold printable; lia|].
    apply Forall_app; split; [|repeat constructor; unfold printable; lia].
    apply join_printable; [apply separators_printable|].
    apply Forall_map. exact IH.
  - cbn [json_dumps].
    apply Forall_app; split; [repeat constructor; unfold printable; lia|].
    apply Forall_app; split; [|repeat constructor; unfold printable; lia].
    apply join_printable; [apply separators_printable|].
    apply Forall_map. eapply Forall_impl; [|exact IH].
    intros [k v] Hv.
    apply Forall_app; split; [apply encode_basestring_ascii_printable|].
    apply Forall_app; split; [apply separators_printable | exact Hv].
Qed.

(** A record takes one line of the file: the text of a record has no line
    feed in it. *)
Lemma count_lines_app (a b : pystr) :
  count_lines (a ++ b) = count_lines a + count_lines b.
Proof. apply count_occ_app. Qed.

Lemma json_dumps_one_line (obj : pyval) :
  count_lines (json_dumps obj ++ newline) = 1.
Proof.
  rewrite count_lines_app. 
  assert (count_lines (json_dumps obj) = 0) as ->.
  { apply count_occ_not_In. intros Hin.
    pose proof (json_dumps_printable obj) as H.
    rewrite Forall_forall in H. specialize (H _ Hin).
    unfold printable in H. lia. }
  reflexivity.
Qed.

Lemma write_jsonl_lines (records : list pyval) :
  count_lines (file_contents (write_jsonl records)) = length records.
Proof.
  unfold file_contents. induction records as [|r records IH]; simpl.
  - reflexivity.
  - rewrite count_lines_app, json_dumps_one_line, IH. reflexivity.
Qed.

(* ------------------------------------------------------------------ *)
(** *** The supervised conversion of a split *)

Lemma printed_errors_app (a b : list stdout_line) :
  printed_errors (a ++ b) = printed_errors a ++ printed_errors b.
Proof. apply flat_map_app. Qed.

(** [json.dumps] returns the text of the value, or raises. *)
Lemma dumps_ok (obj : pyval) (text : pystr) :
  dumps obj = Ok text -> text = json_dumps obj.
Proof.
  unfold dumps. destruct (json_dumps_raises obj); [discriminate|].
  now intros [= <-].
Qed.

(** The [try] block as the loop runs it. *)
Lemma sft_try_text (example : pyval) :
  (sft_format <- convert_preference_to_sft_format example ;;
   dumps sft_format) =
  (sft_format <- sft_try example ;; Ok (json_dumps sft_format)).
Proof.
  unfold sft_try.
  destruct (convert_preference_to_sft_format example) as [r|];
    [|reflexivity].
  cbn [bind]. unfold dumps. now destruct (json_dumps_raises r).
Qed.

(** One turn of the loop, when the record gets through the [try] block and
    when it does not. *)
Lemma sft_step_ok (split : pystr) (st : sft_run) (example sft_format : pyval) :
  sft_try example = Ok sft_format ->
  let st' := sft_step split st example in
  line_count st' = line_count st + 1
  /\ outfile st' = outfile st ++ [json_dumps sft_format ++ newline]
  /\ printed_errors (stdout st') = printed_errors (stdout st).
Proof.
  intros H. unfold sft_step. rewrite sft_try_text, H. cbn [bind].
  generalize (((line_count st + 1) mod 2000 =? 0)%nat
              && pystr_eqb split K_train).
  intros [|]; cbn [line_count outfile stdout]; repeat split.
  rewrite printed_errors_app. cbn [printed_errors flat_map].
  now rewrite app_nil_r.
Qed.

Lemma sft_step_raise (split : pystr) (st : sft_run) (example : pyval)
    (e : pyerr) :
  sft_try example = Raise e ->
  let st' := sft_step split st example in
  line_count st' = line_count st
  /\ outfile st' = outfile st
  /\ printed_errors (stdout st') =
     printed_errors (stdout st) ++ [(line_count st + 1, e)].
Proof.
  intros H. unfold sft_step. rewrite sft_try_text, H.
  cbn [bind line_count outfile stdout].
  repeat split. now rewrite printed_errors_app.
Qed.

Lemma sft_failures_shift (examples : list pyval) (p q : nat) :
  map snd (sft_failures p examples) = map snd (sft_failures q examples).
Proof.
  revert p q; induction examples as [|x l IH]; intros p q; [reflexivity|].
  cbn [sft_failures].
  destruct (sft_try x); cbn [map snd]; [|f_equal]; apply IH.
Qed.

(** The loop: the counter grows with the converted records, each of them
    is written, each failure is printed, and the loop goes on to the end of
    the split. *)
Lemma sft_loop (split : pystr) (examples : list pyval) :
  forall st,
    let st' := fold_left (sft_step split) examples st in
    line_count st' = line_count st + length (sft_records examples)
    /\ outfile st' = outfile st ++ write_jsonl (sft_records examples)
    /\ map snd (printed_errors (stdout st')) =
       map snd (printed_errors (stdout st))
       ++ map snd (sft_failures 1 examples).
Proof.
  induction examples as [|example examples IH]; intros st.
  - cbn. rewrite Nat.add_0_r, !app_nil_r. auto.
  - cbn [fold_left]. cbv zeta.
    destruct (IH (sft_step split st example)) as (Hc & Hw & He). clear IH.
    rewrite Hc, Hw, He. clear Hc Hw He.
    unfold sft_records. cbn [flat_map sft_failures].
    destruct (sft_try example) as [sft_format|e] eqn:Hex.
    + destruct (sft_step_ok split st _ _ Hex) as (Hc & Hw & He).
      rewrite Hc, Hw, He. cbn [app length write_jsonl map].
      rewrite <- app_assoc. repeat split; try reflexivity; [lia|].
      f_equal. apply sft_failures_shift.
    + destruct (sft_step_raise split st _ _ Hex) as (Hc & Hw & He).
      rewrite Hc, Hw, He, map_app. cbn [app map snd].
      rewrite <- app_assoc. repeat split; try reflexivity.
      cbn [app]. do 2 f_equal. apply sft_failures_shift.
Qed.

(** What a call of the driver leaves behind. *)
Lemma process_preference_to_sft_run (input_data rows : pyval)
    (output_path split : pystr) (examples : list pyval) :
  open_output output_path = Ok tt ->
  getitem input_data split = Ok rows ->
  iterate rows = Ok examples ->
  exists run,
    process_preference_to_sft input_data output_path split = Ok run
    /\ line_count run = length (sft_records examples)
    /\ outfile run = write_jsonl (sft_records examples)
    /\ map snd (printed_errors (stdout run)) =
       map snd (sft_failures 1 examples).
Proof.
  intros Ho Hr Hi. unfold process_preference_to_sft.
  rewrite Ho, Hr. cbn [bind]. rewrite Hi. cbn [bind].
  eexists; split; [reflexivity|]. cbn [line_count outfile stdout].
  destruct (sft_loop split examples
              {| line_count := 0; outfile := []; stdout := [] |})
    as (Hc & Hw & He).
  cbn [line_count outfile stdout printed_errors flat_map map app] in *.
  rewrite printed_errors_app, map_app, He.
  cbn [printed_errors flat_map map]. rewrite app_nil_r. auto.
Qed.


(** C4: the number printed with a failure is one more than the count of
    the records written so far, not the position of the failing record.
    On a split of three records of which the second and the third have no
    [preferred_output], both failures are printed as "example 2", while the
    failing records are the second and the third of the split.  The count
    returned, 1, is the number of records written. *)
Theorem C4_error_position_is_written_count_plus_one :
  let u := message K_user (PStr (of_string "c#")) in
  let a := message K_assistant (PStr (of_string "A")) in
  let good := PDict [(K_input, PDict [(K_messages, PList [u])]);
                     (K_preferred_output, PList [a]);
                     (K_non_preferred_output, PList [a])] in
  let bad := PDict [(K_input, PDict [(K_messages, PList [u])])] in
  let examples := [good; bad; bad] in
  exists run,
    process_preference_to_sft (PDict [(K_train, PList examples)])
                              (of_string "data/sft.jsonl") K_train = Ok run
    /\ line_count run = 1
    /\ length (outfile run) = 1
    /\ printed_errors (stdout run) =
       [(2, KeyError K_preferred_output); (2, KeyError K_preferred_output)]
    /\ sft_failures 1 examples =
       [(2, KeyError K_preferred_output); (3, KeyError K_preferred_output)].
Proof.
  intros u a good bad examples. eexists. split; [reflexivity|].
  repeat split; reflexivity.
Qed.

(* ------------------------------------------------------------------ *)
(** *** A split of N examples through the pipeline *)

Lemma view_all_length {A} (view : pyval -> option A) (l : list pyval)
    (rs : list A) :
  view_all view l = Some rs -> length rs = length l.
Proof.
  revert rs; induction l as [|x l IH]; simpl; intros rs.
  - now intros [= <-].
  - destruct (view x); [|discriminate].
    destruct (view_all view l) as [r|]; [|discriminate].
    intros [= <-]. simpl. now rewrite (IH r).
Qed.

Lemma traverse_rows (rows : list pyval) (rs : list RawExample) :
  view_all view_raw rows = Some rs ->
  traverse preference_format rows = Ok (map preference_of rs).
Proof.
  revert rs; induction rows as [|row rows IH]; simpl; intros rs.
  - now intros [= <-].
  - destruct (view_raw row) as [r|] eqn:Hrow; [|discriminate].
    destruct (view_all view_raw rows) as [rs'|]; [|discriminate].
    intros [= <-]. rewrite (preference_format_refines _ _ Hrow). simpl.
    now rewrite (IH rs').
Qed.

(** The record of a RawExample gets through the [try] block: the
    formatter converts it and [json.dumps] encodes the result, which is
    three levels deep and holds no integer. *)
Lemma sft_try_of_preference (r : RawExample) :
  sft_try (preference_of r) = Ok (supervised_of r).
Proof.
  unfold sft_try, preference_of. rewrite sft_format_refines. cbn [bind].
  reflexivity.
Qed.

Lemma sft_records_of_preference (rs : list RawExample) :
  sft_records (map preference_of rs) = map supervised_of rs.
Proof.
  unfold sft_records. induction rs as [|r rs IH]; [reflexivity|].
  cbn [map flat_map]. rewrite sft_try_of_preference, IH. reflexivity.
Qed.

Lemma sft_failures_of_preference (rs : list RawExample) (p : nat) :
  sft_failures p (map preference_of rs) = [].
Proof.
  revert p; induction rs as [|r rs IH]; intros p; [reflexivity|].
  cbn [map sft_failures]. rewrite sft_try_of_preference. apply IH.
Qed.

(** The supervised conversion of a split of converted RawExamples. *)
Lemma sft_of_preference_split (input_data : pyval) (output_path split : pystr)
    (rs : list RawExample) :
  open_output output_path = Ok tt ->
  getitem input_data split = Ok (PList (map preference_of rs)) ->
  sft_split_written input_data output_path split (length rs) rs.
Proof.
  intros Ho Hg.
  destruct (process_preference_to_sft_run _ _ output_path _ _ Ho Hg eq_refl)
    as (run & Hr & Hc & Hw & He).
  exists run. rewrite sft_records_of_preference in Hc, Hw.
  rewrite sft_failures_of_preference in He.
  rewrite Hw, write_jsonl_lines. unfold write_jsonl.
  rewrite !length_map in *. repeat split; auto.
  destruct (printed_errors (stdout run)); [reflexivity|discriminate].
Qed.

(** C5: a dataset whose [train] and [validation] splits are lists of
    RawExamples is converted to as many PreferenceRecords per split, the
    i-th record being the Preference Formatter's result on the i-th row;
    the supervised conversion of either converted split, called with the
    path the notebook gives it, then fails on no record, returns the count
    N and writes N records, one per line, to its file. *)
Theorem C5_split_of_n_examples (dataset : pydict)
    (train validation : list pyval) (rtrain rvalidation : list RawExample) :
  dict_get K_train dataset = Some (PList train) ->
  dict_get K_validation dataset = Some (PList validation) ->
  view_all view_raw train = Some rtrain ->
  view_all view_raw validation = Some rvalidation ->
  let ptrain := map preference_of rtrain in
  let pvalidation := map preference_of rvalidation in
  let converted :=
    PDict [(K_train, PList ptrain); (K_validation, PList pvalidation)] in
  convert_to_preference_dataset (PDict dataset) = Ok converted
  /\ length ptrain = length train
  /\ length pvalidation = length validation
  /\ (forall i row, nth_error train i = Some row ->
        exists record, preference_format row = Ok record
                       /\ nth_error ptrain i = Some record)
  /\ (forall i row, nth_error validation i = Some row ->
        exists record, preference_format row = Ok record
                       /\ nth_error pvalidation i = Some record)
  /\ sft_split_written converted sft_train_output_path K_train
                       (length train) rtrain
  /\ sft_split_written converted sft_validation_output_path K_validation
                       (length validation) rvalidation.
Proof.
  intros Ht Hv Hrt Hrv ptrain pvalidation converted.
  pose proof (traverse_rows _ _ Hrt) as Htr.
  pose proof (traverse_rows _ _ Hrv) as Hva.
  split.
  { rewrite convert_to_preference_dataset_eq. unfold format_split.
    rewrite (getitem_dict _ _ _ Ht), (getitem_dict _ _ _ Hv).
    cbn [bind iterate]. now rewrite Htr, Hva. }
  split; [apply (traverse_length _ _ _ Htr)|].
  split; [apply (traverse_length _ _ _ Hva)|].
  split; [apply (traverse_nth _ _ _ Htr)|].
  split; [apply (traverse_nth _ _ _ Hva)|].
  rewrite <- (view_all_length _ _ _ Hrt), <- (view_all_length _ _ _ Hrv).
  split; apply sft_of_preference_split; reflexivity.
Qed.

Lemma C5_split_of_n_examples_witness :
  let row (p c r : string) :=
    PDict [(K_prompt, PStr (of_string p));
           (K_chosen_response, PStr (of_string c));
           (K_rejected_response, PStr (of_string r));
           (of_string "preference_strength", PInt 2)] in
  let raw (p c r : string) :=
    {| prompt := of_string p; chosen_response := of_string c;
       rejected_response := of_string r |} in
  let train := [row "c#" "A" "B"; row "c" "C" "D"]%string in
  let validation := [row "q" "E" "F"]%string in
  let rtrain := [raw "c#" "A" "B"; raw "c" "C" "D"]%string in
  let rvalidation := [raw "q" "E" "F"]%string in
  let ptrain := map preference_of rtrain in
  let pvalidation := map preference_of rvalidation in
  let converted :=
    PDict [(K_train, PList ptrain); (K_validation, PList pvalidation)] in
  convert_to_preference_dataset
    (PDict [(K_train, PList train); (K_validation, PList validation)])
  = Ok converted
  /\ length ptrain = length train
  /\ length pvalidation = length validation
  /\ (forall i row, nth_error train i = Some row ->
        exists record, preference_format row = Ok record
                       /\ nth_error ptrain i = Some record)
  /\ (forall i row, nth_error validation i = Some row ->
        exists record, preference_format row = Ok record
                       /\ nth_error pvalidation i = Some record)
  /\ sft_split_written converted sft_train_output_path K_train
                       (length train) rtrain
  /\ sft_split_written converted sft_validation_output_path K_validation
                       (length validation) rvalidation.
Proof.
  intros row raw train validation rtrain rvalidation.
  apply (C5_split_of_n_examples
           [(K_train, PList train); (K_validation, PList validation)]
           train validation rtrain rvalidation);
    reflexivity.
Defined.

(* ------------------------------------------------------------------ *)
(** *** Strings through [json.dumps] and [json.loads] *)

Lemma hex_value_digit (d : N) : (d < 16)%N -> hex_value (hex_digit d) = Some d.
Proof.
  intros H. unfold hex_digit, hex_value.
  destruct (N.ltb_spec d 10) as [Hd|Hd].
  - replace ((48 <=? 48 + d) && (48 + d <=? 57))%N with true.
    + f_equal. lia.
    + symmetry. apply andb_true_iff. split; apply N.leb_le; lia.
  - replace ((48 <=? 87 + d) && (87 + d <=? 57))%N with false.
    + replace ((97 <=? 87 + d) && (87 + d <=? 102))%N with true.
      * f_equal. lia.
      * symmetry. apply andb_true_iff. split; apply N.leb_le; lia.
    + symmetry. apply andb_false_iff. right. apply N.leb_gt. lia.
Qed.

Lemma hex4_value (n : N) :
  (n < 65536)%N ->
  (((N.shiftr n 12 mod 16 * 16 + N.shiftr n 8 mod 16) * 16
    + N.shiftr n 4 mod 16) * 16 + n mod 16 = n)%N.
Proof.
  intros H. rewrite !N.shiftr_div_pow2.
  change (2 ^ 12)%N with (16 * 16 * 16)%N.
  change (2 ^ 8)%N with (16 * 16)%N. change (2 ^ 4)%N with 16%N.
  rewrite <- !N.Div0.div_div.
  pose proof (N.div_mod n 16) as E1. pose proof (N.mod_lt n 16) as B1.
  set (q1 := (n / 16)%N) in *. set (r1 := (n mod 16)%N) in *.
  pose proof (N.div_mod q1 16) as E2. pose proof (N.mod_lt q1 16) as B2.
  set (q2 := (q1 / 16)%N) in *. set (r2 := (q1 mod 16)%N) in *.
  pose proof (N.div_mod q2 16) as E3. pose proof (N.mod_lt q2 16) as B3.
  set (q3 := (q2 / 16)%N) in *. set (r3 := (q2 mod 16)%N) in *.
  assert (q3 < 16)%N by lia.
  rewrite (N.mod_small q3 16) by assumption. lia.
Qed.

(** The decoder reads back the number an escape was written from. *)
Lemma decode_u_escape (n : N) :
  (n < 65536)%N ->
  exists h1 h2 h3 h4,
    u_escape n = [92; 117; h1; h2; h3; h4]%N
    /\ decode_hex4 h1 h2 h3 h4 = Some n.
Proof.
  intros H. unfold u_escape. do 4 eexists. split; [reflexivity|].
  unfold decode_hex4.
  rewrite !hex_value_digit by (apply N.mod_lt; discriminate).
  now rewrite hex4_value.
Qed.

Section Bits.

#[local] Open Scope N_scope.

Lemma lor_small (base y : N) :
  base = 55296 \/ base = 56320 -> y < 1024 -> N.lor base y = base + y.
Proof.
  intros Hb Hy.
  assert (H : forallb (fun y => (N.lor 55296 y =? 55296 + y)
                                && (N.lor 56320 y =? 56320 + y))
                      (map N.of_nat (seq 0 1024)) = true)
    by (vm_compute; reflexivity).
  rewrite forallb_forall in H. specialize (H y).
  assert (Hin : In y (map N.of_nat (seq 0 1024))).
  { apply in_map_iff. exists (N.to_nat y). split; [apply N2Nat.id|].
    apply in_seq. lia. }
  apply H in Hin. apply andb_true_iff in Hin as [H1 H2].
  apply N.eqb_eq in H1, H2. destruct Hb; subst; assumption.
Qed.

Lemma recompose (n : N) :
  N.lor (N.shiftl (N.shiftr n 10) 10) (N.land n 1023) = n.
Proof.
  apply N.bits_inj. intros i.
  rewrite N.lor_spec, N.land_spec. change 1023 with (N.ones 10).
  destruct (N.lt_ge_cases i 10) as [Hi|Hi].
  - rewrite N.shiftl_spec_low by assumption.
    rewrite N.ones_spec_low by assumption. simpl. apply andb_true_r.
  - rewrite N.shiftl_spec_high' by assumption.
    rewrite N.shiftr_spec', N.ones_spec_high by assumption.
    rewrite N.sub_add by assumption. rewrite andb_false_r.
    apply orb_false_r.
Qed.

Lemma land_1023 (n : N) : N.land n 1023 = n mod 1024.
Proof. change 1023 with (N.ones 10). now rewrite N.land_ones. Qed.

(** The two halves of a code point above 0xFFFF are a high and a low
    surrogate, and the decoder joins them to the code point. *)
Lemma halves_spec (c : N) :
  65536 <= c -> c < 1114112 ->
  is_high_surrogate (high_half c) = true
  /\ is_low_surrogate (low_half c) = true
  /\ is_low_surrogate (high_half c) = false
  /\ high_half c < 65536 /\ low_half c < 65536
  /\ join_surrogates (high_half c) (low_half c) = c.
Proof.
  intros Hlo Hhi. unfold high_half, low_half, join_surrogates.
  set (n := c - 65536).
  assert (Hn : n < 1048576) by (unfold n; lia).
  assert (Hq : N.shiftr n 10 < 1024).
  { rewrite N.shiftr_div_pow2. change (2 ^ 10) with 1024.
    apply N.Div0.div_lt_upper_bound. lia. }
  assert (Hy1 : N.land (N.shiftr n 10) 1023 = N.shiftr n 10).
  { rewrite land_1023. now apply N.mod_small. }
  assert (Hy2 : N.land n 1023 < 1024).
  { rewrite land_1023. apply N.mod_lt. discriminate. }
  rewrite Hy1, !lor_small by auto.
  unfold is_high_surrogate, is_low_surrogate.
  repeat split.
  - apply andb_true_iff; split; apply N.leb_le; lia.
  - apply andb_true_iff; split; apply N.leb_le; lia.
  - apply andb_false_iff; left. apply N.leb_gt. lia.
  - lia.
  - lia.
  - replace (55296 + N.shiftr n 10 - 55296) with (N.shiftr n 10) by lia.
    replace (56320 + N.land n 1023 - 56320) with (N.land n 1023) by lia.
    rewrite recompose. unfold n. lia.
Qed.

End Bits.

Section Strings.

#[local] Open Scope N_scope.

(** The four ways [encode_char] writes a code point. *)
Lemma encode_char_cases (c : N) :
  c < 1114112 ->
  (exists e, encode_char c = [92; e] /\ (e =? 117) = false
             /\ backslash e = Some c)
  \/ (encode_char c = [c] /\ (c =? 34) = false /\ (c =? 92) = false
      /\ (c <? 32) = false)
  \/ (encode_char c = u_escape c /\ c < 65536)
  \/ (encode_char c = u_escape (high_half c) ++ u_escape (low_half c)
      /\ 65536 <= c).
Proof.
  intros Hc. unfold encode_char.
  destruct (N.eqb_spec c 34) as [->|H34];
    [left; exists 34; repeat split|].
  destruct (N.eqb_spec c 92) as [->|H92];
    [left; exists 92; repeat split|].
  destruct ((32 <=? c) && (c <=? 126)) eqn:Hp.
  { right; left. apply andb_true_iff in Hp as [H1 H2].
    apply N.leb_le in H1. repeat split. apply N.ltb_ge. exact H1. }
  destruct (N.eqb_spec c 8) as [->|H8];
    [left; exists 98; repeat split|].
  destruct (N.eqb_spec c 12) as [->|H12];
    [left; exists 102; repeat split|].
  destruct (N.eqb_spec c 10) as [->|H10];
    [left; exists 110; repeat split|].
  destruct (N.eqb_spec c 13) as [->|H13];
    [left; exists 114; repeat split|].
  destruct (N.eqb_spec c 9) as [->|H9];
    [left; exists 116; repeat split|].
  destruct (N.ltb_spec c 65536) as [Hlt|Hge].
  - right; right; left. auto.
  - right; right; right. auto.
Qed.

Lemma scanstring_quote (rest : pystr) : scanstring (34 :: rest) = Ok ([], rest).
Proof. reflexivity. Qed.

Lemma scanstring_literal (c : N) (t : pystr) :
  (c =? 34) = false -> (c =? 92) = false -> (c <? 32) = false ->
  scanstring (c :: t) = push_char c (scanstring t).
Proof. intros H1 H2 H3. cbn [scanstring]. now rewrite H1, H2, H3. Qed.

Lemma scanstring_backslash (e char : N) (t : pystr) :
  (e =? 117) = false -> backslash e = Some char ->
  scanstring (92 :: e :: t) = push_char char (scanstring t).
Proof.
  intros H1 H2. cbn [scanstring].
  change (92 =? 34) with false. change (92 =? 92) with true. cbv iota.
  now rewrite H1, H2.
Qed.

Lemma scanstring_u (h1 h2 h3 h4 uni : N) (t : pystr) :
  decode_hex4 h1 h2 h3 h4 = Some uni ->
  is_high_surrogate uni && joins t = false ->
  scanstring (92 :: 117 :: h1 :: h2 :: h3 :: h4 :: t) =
  push_char uni (scanstring t).
Proof.
  intros Hd Hj. cbn [scanstring].
  change (92 =? 34) with false. change (92 =? 92) with true.
  change (117 =? 117) with true. cbv iota. rewrite Hd.
  destruct t as [|b [|u t]]; try reflexivity.
  destruct (is_high_surrogate uni); [|reflexivity].
  simpl in Hj. cbn [andb].
  destruct (b =? 92); [|reflexivity].
  destruct (u =? 117); [|reflexivity].
  cbn [andb]. destruct t as [|l1 [|l2 [|l3 [|l4 t]]]]; try discriminate.
  simpl in Hj. destruct (decode_hex4 l1 l2 l3 l4); [|discriminate].
  now rewrite Hj.
Qed.

Lemma scanstring_pair (h1 h2 h3 h4 l1 l2 l3 l4 uni uni2 : N) (t : pystr) :
  decode_hex4 h1 h2 h3 h4 = Some uni ->
  is_high_surrogate uni = true ->
  decode_hex4 l1 l2 l3 l4 = Some uni2 ->
  is_low_surrogate uni2 = true ->
  scanstring (92 :: 117 :: h1 :: h2 :: h3 :: h4
              :: 92 :: 117 :: l1 :: l2 :: l3 :: l4 :: t) =
  push_char (join_surrogates uni uni2) (scanstring t).
Proof.
  intros Hd Hh Hd2 Hl. cbn [scanstring].
  change (92 =? 34) with false. change (92 =? 92) with true.
  change (117 =? 117) with true. cbv iota.
  now rewrite Hd, Hh, Hd2, Hl.
Qed.

Lemma joins_quote (rest : pystr) : joins (34 :: rest) = false.
Proof. destruct rest as [|? [|? [|? [|? [|? ?]]]]]; reflexivity. Qed.

(** After a high surrogate, the text of a next character that is not a low
    surrogate is never taken for a second half. *)
Lemma joins_encoded (c : N) (t : pystr) :
  c < 1114112 -> is_low_surrogate c = false ->
  joins (encode_char c ++ t) = false.
Proof.
  intros Hc Hlow.
  destruct (encode_char_cases c Hc)
    as [(e & -> & He & _) | [(-> & _ & H92 & _) | [(-> & Hlt) | (-> & Hge)]]].
  - cbn [app]. unfold joins. change (92 =? 92) with true. rewrite He.
    destruct t as [|? [|? [|? [|? ?]]]]; reflexivity.
  - cbn [app]. unfold joins. rewrite H92.
    destruct t as [|? [|? [|? [|? [|? ?]]]]]; reflexivity.
  - destruct (decode_u_escape c Hlt) as (h1 & h2 & h3 & h4 & -> & Hd).
    cbn [app]. unfold joins. rewrite Hd, Hlow. reflexivity.
  - destruct (halves_spec c Hge Hc) as (_ & _ & Hnl & Hh & _ & _).
    destruct (decode_u_escape _ Hh) as (h1 & h2 & h3 & h4 & -> & Hd).
    cbn [app]. unfold joins. rewrite Hd, Hnl. reflexivity.
Qed.

Lemma str_safe_cons (c : N) (s : pystr) :
  str_safe (c :: s) = true ->
  c < 1114112 /\ str_safe s = true
  /\ (is_high_surrogate c = true ->
      match s with
      | c' :: _ => c' < 1114112 /\ is_low_surrogate c' = false
      | [] => True
      end).
Proof.
  unfold str_safe. cbn [forallb]. intros H.
  apply andb_true_iff in H as [H1 H2].
  apply andb_true_iff in H1 as [Hc Hs].
  apply N.ltb_lt in Hc. split; [exact Hc|].
  destruct s as [|c' s'].
  - auto.
  - cbn [no_surrogate_pair] in H2. apply andb_true_iff in H2 as [Hp Hn].
    split.
    + apply andb_true_iff. split; assumption.
    + intros Hh. rewrite Hh in Hp. cbn [andb] in Hp.
      cbn [forallb] in Hs. apply andb_true_iff in Hs as [Hc' _].
      apply N.ltb_lt in Hc'. split; [exact Hc'|].
      now destruct (is_low_surrogate c').
Qed.

(** [scanstring] reads back the string [encode_basestring_ascii] wrote. *)
Lemma scanstring_encoded (s : pystr) :
  str_safe s = true ->
  forall rest,
    scanstring (flat_map encode_char s ++ 34 :: rest) = Ok (s, rest).
Proof.
  induction s as [|c s IH]; intros Hs rest; [reflexivity|].
  destruct (str_safe_cons _ _ Hs) as (Hc & Hs' & Hnext).
  cbn [flat_map]. rewrite <- app_assoc.
  specialize (IH Hs' rest).
  destruct (encode_char_cases c Hc)
    as [(e & -> & He & Hb) | [(-> & H34 & H92 & H32)
                             | [(-> & Hlt) | (-> & Hge)]]].
  - cbn [app]. rewrite (scanstring_backslash _ _ _ He Hb), IH. reflexivity.
  - cbn [app]. rewrite (scanstring_literal _ _ H34 H92 H32), IH. reflexivity.
  - destruct (decode_u_escape c Hlt) as (h1 & h2 & h3 & h4 & -> & Hd).
    cbn [app]. rewrite (scanstring_u _ _ _ _ _ _ Hd), IH; [reflexivity|].
    destruct (is_high_surrogate c) eqn:Hh; [|reflexivity].
    specialize (Hnext eq_refl). destruct s as [|c' s'].
    + apply joins_quote.
    + cbn [flat_map]. rewrite <- app_assoc.
      destruct Hnext as [Hc' Hl']. now apply joins_encoded.
  - destruct (halves_spec c Hge Hc) as (Hh & Hl & _ & Hh16 & Hl16 & Hj).
    destruct (decode_u_escape _ Hh16) as (h1 & h2 & h3 & h4 & -> & Hd).
    destruct (decode_u_escape _ Hl16) as (l1 & l2 & l3 & l4 & -> & Hd2).
    cbn [app]. rewrite (scanstring_pair _ _ _ _ _ _ _ _ _ _ _ Hd Hh Hd2 Hl), IH.
    now rewrite Hj.
Qed.

End Strings.

(* ------------------------------------------------------------------ *)
(** *** Integers through [json.dumps] and [json.loads] *)

Section Integers.

#[local] Open Scope N_scope.

Lemma is_digit_48_plus (d : N) : d < 10 -> is_digit (48 + d) = true.
Proof.
  intros H. unfold is_digit. apply andb_true_iff.
  split; apply N.leb_le; lia.
Qed.

Lemma int_of_digits_snoc (ds : pystr) (d : N) :
  int_of_digits (ds ++ [d]) = int_of_digits ds * 10 + (d - 48).
Proof. unfold int_of_digits. now rewrite fold_left_app. Qed.

(** The digits [digits_of] puts in front of [acc]: at least one, no zero
    in front unless the number is zero, and their value is the number. *)
Lemma digits_of_spec (fuel : nat) :
  forall n acc,
    n < 10 ^ N.of_nat (S fuel) ->
    exists d0 ds,
      digits_of (S fuel) n acc = (d0 :: ds) ++ acc
      /\ forallb is_digit (d0 :: ds) = true
      /\ (n = 0 -> d0 = 48 /\ ds = [])
      /\ (n <> 0 -> d0 <> 48)
      /\ int_of_digits (d0 :: ds) = n.
Proof.
  assert (Hsmall : forall f n acc, n < 10 ->
             exists d0 ds,
               digits_of (S f) n acc = (d0 :: ds) ++ acc
               /\ forallb is_digit (d0 :: ds) = true
               /\ (n = 0 -> d0 = 48 /\ ds = [])
               /\ (n <> 0 -> d0 <> 48)
               /\ int_of_digits (d0 :: ds) = n).
  { intros f n acc Hn. exists (48 + n mod 10), [].
    rewrite (N.mod_small n 10) by assumption.
    cbn [digits_of]. rewrite (N.mod_small n 10) by assumption.
    apply N.ltb_lt in Hn as Hb. rewrite Hb.
    split; [reflexivity|]. split; [|split; [|split]].
    - cbn [forallb]. now rewrite is_digit_48_plus.
    - intros ->. split; reflexivity.
    - lia.
    - unfold int_of_digits. cbn [fold_left]. lia. }
  induction fuel as [|fuel IH]; intros n acc Hn.
  - apply Hsmall. exact Hn.
  - destruct (N.lt_ge_cases n 10) as [Hlt|Hge]; [now apply Hsmall|].
    assert (Hq : n / 10 < 10 ^ N.of_nat (S fuel)).
    { apply N.Div0.div_lt_upper_bound.
      rewrite Nat2N.inj_succ, N.pow_succ_r' in Hn. exact Hn. }
    destruct (IH (n / 10) ((48 + n mod 10) :: acc) Hq)
      as (d0 & ds & Hd & Hall & _ & Hnz & Hval).
    exists d0, (ds ++ [48 + n mod 10]).
    assert (Hm : n mod 10 < 10) by (apply N.mod_lt; discriminate).
    split; [|split; [|split; [|split]]].
    + change (digits_of (S (S fuel)) n acc)
        with (if n <? 10
              then (48 + n mod 10) :: acc
              else digits_of (S fuel) (n / 10) ((48 + n mod 10) :: acc)).
      apply N.ltb_ge in Hge as Hb. rewrite Hb, Hd.
      cbn [app]. now rewrite <- app_assoc.
    + change (d0 :: ds ++ [48 + n mod 10])
        with ((d0 :: ds) ++ [48 + n mod 10]).
      rewrite forallb_app, Hall. cbn [forallb].
      now rewrite is_digit_48_plus.
    + lia.
    + intros _. apply Hnz. intros H0.
      apply N.div_small_iff in H0; lia.
    + change (d0 :: ds ++ [48 + n mod 10])
        with ((d0 :: ds) ++ [48 + n mod 10]).
      rewrite int_of_digits_snoc, Hval.
      pose proof (N.div_mod n 10) as Hdm.
      generalize dependent (n / 10). generalize dependent (n mod 10).
      intros; lia.
Qed.

Lemma str_of_N_spec (n : N) :
  exists d0 ds,
    str_of_N n = d0 :: ds
    /\ forallb is_digit (d0 :: ds) = true
    /\ (n = 0 -> d0 = 48 /\ ds = [])
    /\ (n <> 0 -> d0 <> 48)
    /\ int_of_digits (d0 :: ds) = n.
Proof.
  unfold str_of_N.
  destruct (digits_of_spec (N.to_nat (N.log2 n)) n [])
    as (d0 & ds & Hd & H).
  - rewrite Nat2N.inj_succ, N2Nat.id.
    destruct (N.eq_dec n 0) as [->|Hn]; [reflexivity|].
    destruct (N.log2_spec n) as [_ Hlt]; [lia|].
    eapply N.lt_le_trans; [exact Hlt|].
    apply N.pow_le_mono_l. lia.
  - exists d0, ds. rewrite Hd, app_nil_r. auto.
Qed.

Lemma span_digits_app (ds rest : pystr) :
  forallb is_digit ds = true ->
  match rest with c :: _ => is_digit c = false | [] => True end ->
  span_digits (ds ++ rest) = (ds, rest).
Proof.
  intros Hds Hrest. induction ds as [|d ds IH]; cbn [app].
  - destruct rest as [|c rest]; [reflexivity|].
    cbn [span_digits]. now rewrite Hrest.
  - cbn [forallb] in Hds. apply andb_true_iff in Hds as [Hd Hds].
    cbn [span_digits]. now rewrite Hd, (IH Hds).
Qed.

Lemma match_unsigned (n : N) (rest : pystr) :
  match rest with c :: _ => is_digit c = false | [] => True end ->
  exists d0 ds,
    str_of_N n = d0 :: ds /\ (d0 =? 45) = false
    /\ is_digit d0 = true
    /\ match_integer (d0 :: ds ++ rest) = Some (Z.of_N n, rest)
    /\ match_integer (45 :: d0 :: ds ++ rest) = Some ((- Z.of_N n)%Z, rest).
Proof.
  intros Hrest.
  destruct (str_of_N_spec n) as (d0 & ds & Hs & Hall & Hz & Hnz & Hval).
  exists d0, ds. cbn [forallb] in Hall.
  apply andb_true_iff in Hall as [Hd0 Hds].
  assert (H45 : (d0 =? 45) = false).
  { unfold is_digit in Hd0. apply andb_true_iff in Hd0 as [H1 _].
    apply N.leb_le in H1. apply N.eqb_neq. lia. }
  split; [exact Hs|]. split; [exact H45|]. split; [exact Hd0|].
  unfold match_integer. rewrite H45. change (45 =? 45) with true. cbv iota.
  destruct (N.eqb_spec d0 48) as [->|H48].
  - destruct (N.eq_dec n 0) as [->|Hn]; [|now destruct (Hnz Hn)].
    destruct (Hz eq_refl) as [_ ->]. split; reflexivity.
  - rewrite Hd0, (span_digits_app _ _ Hds Hrest), Hval. split; reflexivity.
Qed.

Lemma match_integer_str_of_int (z : Z) (rest : pystr) :
  match rest with c :: _ => is_digit c = false | [] => True end ->
  match_integer (str_of_int z ++ rest) = Some (z, rest)
  /\ exists c t, str_of_int z = c :: t /\ (c =? 45) || is_digit c = true.
Proof.
  intros Hrest. destruct z as [|p|p]; unfold str_of_int.
  - destruct (match_unsigned (Z.to_N 0) _ Hrest)
      as (d0 & ds & -> & _ & Hd & H & _).
    split; [exact H|]. exists d0, ds. rewrite Hd. split; auto using orb_true_r.
  - destruct (match_unsigned (Z.to_N (Z.pos p)) _ Hrest)
      as (d0 & ds & -> & _ & Hd & H & _).
    split; [exact H|]. exists d0, ds. rewrite Hd. split; auto using orb_true_r.
  - destruct (match_unsigned (N.pos p) _ Hrest)
      as (d0 & ds & -> & _ & _ & _ & H).
    split; [exact H|]. eexists _, _. split; reflexivity.
Qed.

End Integers.

(* ------------------------------------------------------------------ *)
(** *** Values through [json.dumps] and [json.loads] *)

Section Values.

#[local] Open Scope N_scope.

(** The first character of the text of a value. *)
Lemma json_dumps_head (v : pyval) :
  exists c t,
    json_dumps v = c :: t
    /\ is_whitespace c = false /\ (c =? 93) = false /\ (c =? 125) = false.
Proof.
  destruct v as [| [|] | z | s | l | d];
    try (eexists _, _; split; [reflexivity|]; repeat split; reflexivity).
  destruct (match_integer_str_of_int z [] I) as (_ & c & t & E & Hc).
  exists c, t. cbn [json_dumps]. split; [exact E|]. clear E.
  apply orb_true_iff in Hc as [Hc|Hc].
  - apply N.eqb_eq in Hc. subst c. repeat split.
  - unfold is_digit in Hc. apply andb_true_iff in Hc as [H1 H2].
    apply N.leb_le in H1, H2. unfold is_whitespace.
    repeat split;
      rewrite ?orb_false_iff; repeat split; apply N.eqb_neq; lia.
Qed.

Lemma json_dumps_nonempty (v : pyval) : (1 <= length (json_dumps v))%nat.
Proof.
  destruct (json_dumps_head v) as (c & t & -> & _). cbn [length]. lia.
Qed.

Lemma skip_whitespace_value (v : pyval) (t : pystr) :
  skip_whitespace (json_dumps v ++ t) = json_dumps v ++ t.
Proof.
  destruct (json_dumps_head v) as (c & t' & -> & Hw & _).
  cbn [app skip_whitespace]. now rewrite Hw.
Qed.

Lemma array_text (x : pyval) (l : list pyval) (rest : pystr) :
  join item_separator (map json_dumps (x :: l)) ++ 93 :: rest =
  json_dumps x ++ array_tail l rest.
Proof.
  revert x; induction l as [|y l IH]; intros x.
  - reflexivity.
  - change (join item_separator (map json_dumps (x :: y :: l)))
      with (json_dumps x ++ item_separator
            ++ join item_separator (map json_dumps (y :: l))).
    rewrite <- !app_assoc, IH. reflexivity.
Qed.

Lemma object_text (kv : pystr * pyval) (d : pydict) (rest : pystr) :
  join item_separator (map member (kv :: d)) ++ 125 :: rest =
  34 :: member_text kv ++ object_tail d rest.
Proof.
  assert (Hm : forall kv t, member kv ++ t = 34 :: member_text kv ++ t).
  { intros [k v] t. unfold member, member_text, encode_basestring_ascii.
    cbn [fst snd app]. now rewrite <- !app_assoc. }
  revert kv; induction d as [|kv' d IH]; intros kv.
  - cbn [map join object_tail]. apply Hm.
  - change (join item_separator (map member (kv :: kv' :: d)))
      with (member kv ++ item_separator
            ++ join item_separator (map member (kv' :: d))).
    rewrite <- !app_assoc, IH, Hm. reflexivity.
Qed.

Lemma delimited_array_tail (l : list pyval) (rest : pystr) :
  delimited (array_tail l rest) = true.
Proof. destruct l; reflexivity. Qed.

Lemma delimited_object_tail (d : pydict) (rest : pystr) :
  delimited (object_tail d rest) = true.
Proof. destruct d; reflexivity. Qed.

(** After a delimiter there is no further digit, fraction or exponent. *)
Lemma delimited_number_end (rest : pystr) :
  delimited rest = true ->
  match rest with c :: _ => is_digit c = false | [] => True end
  /\ frac_or_exp_follows rest = false.
Proof.
  destruct rest as [|c rest]; [split; [exact I|reflexivity]|].
  cbn [delimited]. unfold is_whitespace. intros H.
  assert (Hc : c = 32 \/ c = 9 \/ c = 10 \/ c = 13 \/ c = 44 \/ c = 93
               \/ c = 125).
  { repeat (apply orb_true_iff in H as [H|H]);
      apply N.eqb_eq in H; auto 10. }
  destruct rest as [|d rest];
    (split; [|try reflexivity]);
    repeat (destruct Hc as [->|Hc]; try reflexivity); subst; reflexivity.
Qed.

Lemma skip_comma (t : pystr) : skip_whitespace (44 :: t) = 44 :: t.
Proof. reflexivity. Qed.

Lemma skip_space (t : pystr) : skip_whitespace (32 :: t) = skip_whitespace t.
Proof. reflexivity. Qed.

Section Loops.

Variable scan : pystr -> result (pyval * pystr).

Lemma JSONArray_empty (rest : pystr) :
  JSONArray scan (93 :: rest) = Ok (PList [], rest).
Proof. reflexivity. Qed.

Lemma array_loop_spec (l : list pyval) :
  forall x values n rest,
    (length (x :: l) <= n)%nat ->
    Forall (reads_back scan) (x :: l) ->
    array_loop scan n (json_dumps x ++ array_tail l rest) values =
    Ok (PList (values ++ x :: l), rest).
Proof.
  induction l as [|y l IH]; intros x values n rest Hn Hall;
    (destruct n as [|n]; [cbn [length] in Hn; lia|]);
    inversion Hall as [|? ? Hx Hl]; subst;
    cbn [array_loop];
    rewrite (Hx _ (delimited_array_tail _ rest)); cbn [bind].
  - reflexivity.
  - change (array_tail (y :: l) rest)
      with (44 :: 32 :: json_dumps y ++ array_tail l rest).
    rewrite skip_comma. change (44 =? 93) with false.
    change (44 =? 44) with true. cbv iota.
    rewrite skip_space, skip_whitespace_value, IH;
      [|cbn [length] in *; lia|exact Hl].
    now rewrite <- app_assoc.
Qed.

Lemma JSONArray_spec (x : pyval) (l : list pyval) (rest : pystr) :
  Forall (reads_back scan) (x :: l) ->
  JSONArray scan (json_dumps x ++ array_tail l rest) =
  Ok (PList (x :: l), rest).
Proof.
  intros Hall. unfold JSONArray. rewrite skip_whitespace_value.
  assert (Hlen : (length (x :: l)
                  <= length (json_dumps x ++ array_tail l rest))%nat).
  { rewrite length_app. pose proof (json_dumps_nonempty x).
    assert (length l <= length (array_tail l rest))%nat; [|cbn [length]; lia].
    clear. induction l as [|y l IH]; cbn [array_tail length]; [lia|].
    rewrite !length_app. pose proof (json_dumps_nonempty y). lia. }
  pose proof (array_loop_spec l x [] _ rest Hlen Hall) as Hloop.
  destruct (json_dumps_head x) as (c & t & E & _ & H93 & _).
  rewrite E in *. cbn [app] in *. rewrite H93. exact Hloop.
Qed.

Lemma skip_colon (t : pystr) : skip_whitespace (58 :: t) = 58 :: t.
Proof. reflexivity. Qed.

Lemma skip_quote (t : pystr) : skip_whitespace (34 :: t) = 34 :: t.
Proof. reflexivity. Qed.

Lemma member_text_app (k : pystr) (v : pyval) (t : pystr) :
  member_text (k, v) ++ t =
  flat_map encode_char k ++ 34 :: 58 :: 32 :: json_dumps v ++ t.
Proof.
  unfold member_text, key_separator. cbn [fst snd].
  rewrite <- app_assoc. cbn [app]. reflexivity.
Qed.

Lemma object_loop_spec (d : pydict) :
  forall kv pairs n rest,
    (length (kv :: d) <= n)%nat ->
    Forall (fun kv => str_safe (fst kv) = true /\ reads_back scan (snd kv))
           (kv :: d) ->
    object_loop scan n (member_text kv ++ object_tail d rest) pairs =
    Ok (PDict (dict_of_pairs (pairs ++ kv :: d)), rest).
Proof.
  induction d as [|kv' d IH]; intros [k v] pairs n rest Hn Hall;
    (destruct n as [|n]; [cbn [length] in Hn; lia|]);
    inversion Hall as [|? ? [Hk Hv] Hd]; subst; cbn [fst snd] in *;
    cbn [object_loop];
    rewrite member_text_app, (scanstring_encoded _ Hk); cbn [bind];
    rewrite skip_colon; change (58 =? 58) with true; cbv iota;
    rewrite skip_space, skip_whitespace_value,
            (Hv _ (delimited_object_tail _ rest)); cbn [bind].
  - reflexivity.
  - change (object_tail (kv' :: d) rest)
      with (44 :: 32 :: 34 :: member_text kv' ++ object_tail d rest).
    rewrite skip_comma. change (44 =? 125) with false.
    change (44 =? 44) with true. cbv iota.
    rewrite skip_space, skip_quote. change (34 =? 34) with true. cbv iota.
    rewrite IH; [|cbn [length] in *; lia|exact Hd].
    now rewrite <- app_assoc.
Qed.

Lemma JSONObject_empty (rest : pystr) :
  JSONObject scan (125 :: rest) = Ok (PDict [], rest).
Proof. reflexivity. Qed.

Lemma JSONObject_spec (kv : pystr * pyval) (d : pydict) (rest : pystr) :
  Forall (fun kv => str_safe (fst kv) = true /\ reads_back scan (snd kv))
         (kv :: d) ->
  JSONObject scan (34 :: member_text kv ++ object_tail d rest) =
  Ok (PDict (dict_of_pairs (kv :: d)), rest).
Proof.
  intros Hall. unfold JSONObject. rewrite skip_quote.
  change (34 =? 34) with true. cbv iota.
  apply (object_loop_spec d kv [] _ rest); [|exact Hall].
  cbn [length]. rewrite length_app.
  assert (length d <= length (object_tail d rest))%nat; [|lia].
  clear. induction d as [|kv d IH]; cbn [object_tail length]; [lia|].
  rewrite !length_app. cbn [length]. rewrite length_app. lia.
Qed.

End Loops.

(** [dict(pairs)] of pairs with distinct keys is the pairs themselves. *)
Lemma dict_set_fresh (k : pystr) (v : pyval) (acc : pydict) :
  has_key k acc = false -> dict_set k v acc = acc ++ [(k, v)].
Proof.
  induction acc as [|[k' v'] acc IH]; cbn [has_key dict_set app];
    [reflexivity|].
  intros H. apply orb_false_iff in H as [Hk Hacc].
  now rewrite Hk, (IH Hacc).
Qed.

Lemma has_key_app (k : pystr) (a b : pydict) :
  has_key k (a ++ b) = has_key k a || has_key k b.
Proof.
  induction a as [|[k' v'] a IH]; cbn [has_key app]; [reflexivity|].
  now rewrite IH, orb_assoc.
Qed.

Lemma has_key_in (k : pystr) (d : pydict) (kv : pystr * pyval) :
  has_key k d = false -> In kv d -> pystr_eqb (fst kv) k = false.
Proof.
  induction d as [|[k' v'] d IH]; cbn [has_key In]; [tauto|].
  intros H [<-|Hin]; apply orb_false_iff in H as [Hk Hd]; [|auto].
  cbn [fst]. destruct (pystr_eqb k' k) eqn:E; [|reflexivity].
  apply pystr_eqb_eq in E. subst. now rewrite pystr_eqb_refl in Hk.
Qed.

Lemma dict_of_pairs_distinct (d : pydict) :
  distinct_keys d = true -> dict_of_pairs d = d.
Proof.
  unfold dict_of_pairs.
  assert (H : forall d acc,
             distinct_keys d = true ->
             (forall kv, In kv d -> has_key (fst kv) acc = false) ->
             fold_left (fun d kv => dict_set (fst kv) (snd kv) d) d acc
             = acc ++ d).
  { clear d. induction d as [|[k v] d IH]; intros acc Hd Hacc;
      cbn [fold_left]; [now rewrite app_nil_r|].
    cbn [distinct_keys] in Hd. apply andb_true_iff in Hd as [Hk Hd].
    apply negb_true_iff in Hk. cbn [fst snd].
    rewrite dict_set_fresh by (apply (Hacc (k, v)); now left).
    rewrite IH; [now rewrite <- app_assoc|exact Hd|].
    intros kv Hin. rewrite has_key_app, (Hacc kv) by now right.
    cbn [has_key orb]. now rewrite (has_key_in _ _ _ Hk Hin). }
  intros Hd. now apply (H d []).
Qed.

Lemma join_length_in (sep x : pystr) (items : list pystr) :
  In x items -> (length x <= length (join sep items))%nat.
Proof.
  induction items as [|y items IH]; [intros []|].
  intros Hin. destruct items as [|z items].
  - destruct Hin as [->|[]]. cbn [join]. lia.
  - change (join sep (y :: z :: items))
      with (y ++ sep ++ join sep (z :: items)).
    rewrite !length_app. destruct Hin as [->|Hin]; [lia|].
    specialize (IH Hin). lia.
Qed.

Lemma scan_once_number (room : nat) (c : N) (t r : pystr) (z : Z) :
  (c =? 45) || is_digit c = true ->
  match_integer (c :: t) = Some (z, r) ->
  scan_once room (c :: t) =
  if frac_or_exp_follows r then Raise FloatNotModelled
  else if too_many_digits z then Raise ValueError
  else Ok (PInt z, r).
Proof.
  intros Hc Hm.
  assert (H : c = 45 \/ c = 48 \/ c = 49 \/ c = 50 \/ c = 51 \/ c = 52
              \/ c = 53 \/ c = 54 \/ c = 55 \/ c = 56 \/ c = 57).
  { apply orb_true_iff in Hc as [Hc|Hc].
    - apply N.eqb_eq in Hc. auto.
    - unfold is_digit in Hc. apply andb_true_iff in Hc as [H1 H2].
      apply N.leb_le in H1, H2. lia. }
  repeat (destruct H as [->|H]); subst;
    destruct room; cbn [scan_once]; rewrite Hm; reflexivity.
Qed.

Lemma scan_once_string (room : nat) (t : pystr) :
  scan_once room (34 :: t) =
  bind (scanstring t) (fun '(str, r) => Ok (PStr str, r)).
Proof. destruct room; reflexivity. Qed.

Lemma scan_once_array (room : nat) (t : pystr) :
  scan_once (S room) (91 :: t) = JSONArray (scan_once room) t.
Proof. reflexivity. Qed.

Lemma scan_once_object (room : nat) (t : pystr) :
  scan_once (S room) (123 :: t) = JSONObject (scan_once room) t.
Proof. reflexivity. Qed.

(** The scanner reads back the text of every safe value that is nested
    within the room it has. *)
Lemma scan_once_dumps (v : pyval) :
  json_safe v = true ->
  forall room, fits room v = true -> reads_back (scan_once room) v.
Proof.
  induction v as [| b | z | s | l IH | d IH] using pyval_ind;
    intros Hsafe room Hroom rest Hrest.
  - destruct room; reflexivity.
  - destruct room, b; reflexivity.
  - destruct (delimited_number_end _ Hrest) as [Hdigit Hfrac].
    destruct (match_integer_str_of_int z rest Hdigit)
      as (Hm & c & t & E & Hc).
    apply json_safe_small_ints in Hsafe. cbn [small_ints] in Hsafe.
    apply negb_true_iff in Hsafe.
    cbn [json_dumps] in *. rewrite E in *. cbn [app] in *.
    now rewrite (scan_once_number room c _ rest z Hc Hm), Hfrac, Hsafe.
  - cbn [json_dumps json_safe] in *. unfold encode_basestring_ascii.
    rewrite <- !app_assoc. cbn [app].
    now rewrite scan_once_string, (scanstring_encoded _ Hsafe).
  - destruct room as [|room]; [now cbn [fits] in *|]. cbn [fits] in Hroom.
    change (json_dumps (PList l))
      with ([91] ++ join item_separator (map json_dumps l) ++ [93]) in *.
    rewrite <- !app_assoc. cbn [app]. rewrite scan_once_array.
    destruct l as [|x l]; [apply JSONArray_empty|].
    rewrite array_text. apply JSONArray_spec.
    cbn [json_safe] in Hsafe. rewrite forallb_forall in Hsafe, Hroom.
    rewrite Forall_forall in IH |- *. intros y Hy.
    apply IH; [exact Hy|now apply Hsafe|now apply Hroom].
  - destruct room as [|room]; [now cbn [fits] in *|]. cbn [fits] in Hroom.
    change (json_dumps (PDict d))
      with ([123] ++ join item_separator (map member d) ++ [125]) in *.
    rewrite <- !app_assoc. cbn [app]. rewrite scan_once_object.
    cbn [json_safe] in Hsafe. apply andb_true_iff in Hsafe as [Hsafe Hkeys].
    destruct d as [|kv d]; [apply JSONObject_empty|].
    rewrite object_text, JSONObject_spec, (dict_of_pairs_distinct _ Hkeys);
      [reflexivity|].
    rewrite forallb_forall in Hsafe, Hroom.
    rewrite Forall_forall in IH |- *. intros [k y] Hy.
    specialize (Hsafe _ Hy). apply andb_true_iff in Hsafe as [Hk Hv].
    cbn [fst snd] in *. split; [exact Hk|].
    apply (IH _ Hy); [exact Hv|]. apply (Hroom _ Hy).
Qed.

(** [json.loads(json.dumps(v))] is [v] for every safe value nested within
    the recursion limit. *)
Lemma json_loads_dumps (v : pyval) :
  json_safe v = true ->
  fits recursion_room v = true ->
  json_loads (json_dumps v) = Ok v.
Proof.
  intros Hsafe Hroom. unfold json_loads.
  assert (Hbom : starts_with_bom (json_dumps v) = false).
  { pose proof (json_dumps_printable v) as Hp.
    destruct (json_dumps v) as [|c t]; [reflexivity|].
    inversion Hp as [|? ? Hc _]; subst. unfold printable in Hc.
    cbn [starts_with_bom]. apply N.eqb_neq. lia. }
  rewrite Hbom.
  pose proof (skip_whitespace_value v []) as Hskip.
  rewrite app_nil_r in Hskip. rewrite Hskip.
  pose proof (scan_once_dumps v Hsafe _ Hroom [] eq_refl) as Hscan.
  rewrite app_nil_r in Hscan. rewrite Hscan. reflexivity.
Qed.

(** The same for a line of a JSON-lines file, with its line feed. *)
Lemma json_loads_line (v : pyval) :
  json_safe v = true ->
  fits recursion_room v = true ->
  json_loads (json_dumps v ++ newline) = Ok v.
Proof.
  intros Hsafe Hroom. unfold json_loads.
  assert (Hbom : starts_with_bom (json_dumps v ++ newline) = false).
  { pose proof (json_dumps_printable v) as Hp.
    destruct (json_dumps v) as [|c t]; [reflexivity|].
    inversion Hp as [|? ? Hc _]; subst. unfold printable in Hc.
    cbn [starts_with_bom app]. apply N.eqb_neq. lia. }
  rewrite Hbom, skip_whitespace_value.
  rewrite (scan_once_dumps v Hsafe _ Hroom newline eq_refl). reflexivity.
Qed.

End Values.

(* ------------------------------------------------------------------ *)
(** *** PreferenceRecords through the JSON-lines files *)

Lemma view_message_py (m : ChatMessage) :
  view_message (py_of_message m) = Some m.
Proof. destruct m as [[|] c]; reflexivity. Qed.

Lemma view_messages_py (l : list ChatMessage) :
  view_messages (py_of_messages l) = Some l.
Proof.
  unfold py_of_messages, view_messages.
  induction l as [|m l IH]; [reflexivity|].
  cbn [map view_all]. now rewrite view_message_py, IH.
Qed.

(** A record is read back from its Python object. *)
Lemma view_preference_py (p : PreferenceRecord) :
  view_preference (py_of_preference p) = Some p.
Proof.
  destruct p as [a b c]. unfold py_of_preference, view_preference.
  cbn [input_messages preferred_output non_preferred_output].
  change (pystr_eqb K_input K_input && pystr_eqb K_messages K_messages
          && pystr_eqb K_preferred_output K_preferred_output
          && pystr_eqb K_non_preferred_output K_non_preferred_output)
    with true.
  cbv iota. now rewrite !view_messages_py.
Qed.

Lemma messages_json_safe (l : list ChatMessage) :
  messages_safe l = true -> json_safe (py_of_messages l) = true.
Proof.
  unfold messages_safe, py_of_messages. cbn [json_safe].
  induction l as [|[r c] l IH]; [reflexivity|].
  cbn [forallb map]. intros H. apply andb_true_iff in H as [Hc Hl].
  rewrite (IH Hl), andb_true_r. clear IH Hl.
  unfold py_of_message. cbn [msg_role content json_safe forallb fst snd].
  cbn [content] in Hc. rewrite Hc. destruct r; reflexivity.
Qed.

Lemma messages_fit (l : list ChatMessage) (room : nat) :
  fits (S (S room)) (py_of_messages l) = true.
Proof.
  unfold py_of_messages. cbn [fits].
  induction l as [|[r c] l IH]; [reflexivity|].
  cbn [forallb map]. now rewrite IH.
Qed.

(** A PreferenceRecord is four levels deep. *)
Lemma preference_fits (p : PreferenceRecord) :
  fits recursion_room (py_of_preference p) = true.
Proof.
  apply (fits_mono _ 4); [|apply Nat.leb_le; reflexivity].
  unfold py_of_preference. cbn [fits forallb snd].
  now rewrite !messages_fit.
Qed.

Lemma preference_json_safe (p : PreferenceRecord) :
  preference_safe p = true -> json_safe (py_of_preference p) = true.
Proof.
  unfold preference_safe. intros H.
  apply andb_true_iff in H as [H Hc]. apply andb_true_iff in H as [Ha Hb].
  apply messages_json_safe in Ha, Hb, Hc.
  unfold py_of_preference. cbn [json_safe forallb fst snd].
  rewrite Ha, Hb, Hc. reflexivity.
Qed.

(** C8 (as stated, refuted): a PreferenceRecord whose prompt is the two
    code points U+D83D, U+DE00 is written with the two escapes of a
    surrogate pair, which [json.loads] reads as the single code point
    U+1F600: the record read back is another record. *)
Lemma C8_counterexample :
  let with_prompt (s : pystr) :=
    PreferenceFormat {| prompt := s; chosen_response := of_string "A";
                        rejected_response := of_string "B" |} in
  let p := with_prompt [55357; 56832]%N in
  json_loads (json_dumps (py_of_preference p)) =
    Ok (py_of_preference (with_prompt [128512]%N))
  /\ json_loads (json_dumps (py_of_preference p)) <> Ok (py_of_preference p).
Proof.
  intros with_prompt p.
  assert (H : json_loads (json_dumps (py_of_preference p)) =
              Ok (py_of_preference (with_prompt [128512]%N)))
    by (vm_compute; reflexivity).
  split; [exact H|]. rewrite H. discriminate.
Qed.

(** C8 (amended): for every PreferenceRecord in whose message contents no
    high surrogate is immediately followed by a low surrogate, the text
    [json.dumps] writes for the record is read by [json.loads] as the same
    Python object, hence as the same record; so is the line written to the
    JSON-lines file. *)
Theorem C8_preference_record_round_trip (p : PreferenceRecord) :
  preference_safe p = true ->
  json_loads (json_dumps (py_of_preference p)) = Ok (py_of_preference p)
  /\ json_loads (json_dumps (py_of_preference p) ++ newline) =
     Ok (py_of_preference p)
  /\ view_preference (py_of_preference p) = Some p.
Proof.
  intros Hp. apply preference_json_safe in Hp.
  pose proof (preference_fits p) as Hroom.
  split; [now apply json_loads_dumps|].
  split; [now apply json_loads_line|apply view_preference_py].
Qed.

Lemma C8_preference_record_round_trip_witness :
  let p := PreferenceFormat {| prompt := of_string "c#";
                               chosen_response := [128512; 10; 233]%N;
                               rejected_response := [] |} in
  json_loads (json_dumps (py_of_preference p)) = Ok (py_of_preference p)
  /\ json_loads (json_dumps (py_of_preference p) ++ newline) =
     Ok (py_of_preference p)
  /\ view_preference (py_of_preference p) = Some p.
Proof.
  intros p. apply C8_preference_record_round_trip. reflexivity.
Defined.

(* ------------------------------------------------------------------ *)
(** *** More on the conversion to the preference format *)

(** X1: the conversion reads the [train] and [validation] splits of the
    dataset and nothing else: two datasets with the same two splits get
    the same outcome, whatever other splits they hold. *)
Theorem X1_other_splits_not_read (d1 d2 : pydict) :
  dict_get K_train d1 = dict_get K_train d2 ->
  dict_get K_validation d1 = dict_get K_validation d2 ->
  convert_to_preference_dataset (PDict d1) =
  convert_to_preference_dataset (PDict d2).
Proof.
  intros Ht Hv. rewrite !convert_to_preference_dataset_eq.
  unfold format_split, getitem. now rewrite Ht, Hv.
Qed.

Lemma X1_other_splits_not_read_witness :
  let row := PDict [(K_prompt, PStr (of_string "c#"));
                    (K_chosen_response, PStr (of_string "A"));
                    (K_rejected_response, PStr (of_string "B"))] in
  convert_to_preference_dataset
    (PDict [(K_train, PList [row]); (K_validation, PList [])]) =
  convert_to_preference_dataset
    (PDict [(of_string "test", PList [PNone]); (K_validation, PList []);
            (K_train, PList [row])]).
Proof.
  intros row. apply X1_other_splits_not_read; reflexivity.
Defined.

Lemma traverse_first_error {A B} (f : A -> result B) (pre post : list A)
    (x : A) (e : pyerr) :
  Forall (fun y => is_ok (f y) = true) pre ->
  f x = Raise e ->
  traverse f (pre ++ x :: post) = Raise e.
Proof.
  intros Hpre Hx. induction Hpre as [|y pre Hy _ IH]; cbn [app traverse].
  - now rewrite Hx.
  - destruct (f y); [|discriminate]. cbn [bind]. now rewrite IH.
Qed.

Lemma traverse_all_ok {A B} (f : A -> result B) (xs : list A) :
  Forall (fun y => is_ok (f y) = true) xs ->
  exists ys, traverse f xs = Ok ys.
Proof.
  intros H. induction H as [|y xs Hy _ [ys IH]]; cbn [traverse].
  - now exists [].
  - destruct (f y) as [b|]; [|discriminate]. cbn [bind]. rewrite IH.
    now exists (b :: ys).
Qed.

(** X2: the exception the conversion raises is that of the first example
    that fails, the [train] split coming first: a failure in [train] is
    raised whatever the [validation] split is, and a failure in
    [validation] is raised once all of [train] went through. *)
Theorem X2_first_failure_is_raised (dataset rows : pyval)
    (pre post : list pyval) (x : pyval) (e : pyerr) :
  Forall (fun y => is_ok (preference_format y) = true) pre ->
  preference_format x = Raise e ->
  iterate rows = Ok (pre ++ x :: post) ->
  (getitem dataset K_train = Ok rows ->
   convert_to_preference_dataset dataset = Raise e)
  /\ (forall train examples,
        getitem dataset K_train = Ok train ->
        iterate train = Ok examples ->
        Forall (fun y => is_ok (preference_format y) = true) examples ->
        getitem dataset K_validation = Ok rows ->
        convert_to_preference_dataset dataset = Raise e).
Proof.
  intros Hpre Hx Hrows.
  pose proof (traverse_first_error preference_format pre post x e Hpre Hx)
    as Hfail.
  split.
  - intros Ht. rewrite convert_to_preference_dataset_eq. unfold format_split.
    rewrite Ht. cbn [bind]. rewrite Hrows. cbn [bind]. now rewrite Hfail.
  - intros train examples Ht Hi Hall Hv.
    destruct (traverse_all_ok preference_format examples Hall) as [ys Hys].
    rewrite convert_to_preference_dataset_eq. unfold format_split.
    rewrite Ht. cbn [bind]. rewrite Hi. cbn [bind]. rewrite Hys. cbn [bind].
    rewrite Hv. cbn [bind]. rewrite Hrows. cbn [bind]. now rewrite Hfail.
Qed.

Lemma X2_first_failure_is_raised_witness :
  let good := PDict [(K_prompt, PStr (of_string "c#"));
                     (K_chosen_response, PStr (of_string "A"));
                     (K_rejected_response, PStr (of_string "B"))] in
  let no_chosen := PDict [(K_prompt, PStr (of_string "c#"))] in
  convert_to_preference_dataset
    (PDict [(K_train, PList [good; no_chosen; PNone])]) =
    Raise (KeyError K_chosen_response)
  /\ convert_to_preference_dataset
       (PDict [(K_train, PList [good]);
               (K_validation, PList [good; no_chosen; PNone])]) =
     Raise (KeyError K_chosen_response).
Proof.
  intros good no_chosen.
  assert (Hgood : Forall (fun y => is_ok (preference_format y) = true)
                         [good])
    by (repeat constructor).
  split.
  - apply (proj1 (X2_first_failure_is_raised
                    (PDict [(K_train, PList [good; no_chosen; PNone])])
                    (PList [good; no_chosen; PNone])
                    [good] [PNone] no_chosen (KeyError K_chosen_response)
                    Hgood eq_refl eq_refl)).
    reflexivity.
  - apply (proj2 (X2_first_failure_is_raised
                    (PDict [(K_train, PList [good]);
                            (K_validation, PList [good; no_chosen; PNone])])
                    (PList [good; no_chosen; PNone])
                    [good] [PNone] no_chosen (KeyError K_chosen_response)
                    Hgood eq_refl eq_refl)
                 (PList [good]) [good]);
      try reflexivity. exact Hgood.
Defined.

(** What the formatter did when it returned a record. *)
Lemma preference_format_ok (example record : pyval) :
  preference_format example = Ok record ->
  exists d p c r,
    example = PDict d
    /\ dict_get K_prompt d = Some p
    /\ dict_get K_chosen_response d = Some c
    /\ dict_get K_rejected_response d = Some r
    /\ record =
       PDict [(K_input, PDict [(K_messages, PList [message K_user p])]);
              (K_preferred_output, PList [message K_assistant c]);
              (K_non_preferred_output, PList [message K_assistant r])].
Proof.
  unfold preference_format.
  destruct example as [| | | | |d]; try discriminate. cbn [getitem].
  destruct (dict_get K_prompt d) as [p|] eqn:Hp; [|discriminate].
  destruct (dict_get K_chosen_response d) as [c|] eqn:Hc; [|discriminate].
  destruct (dict_get K_rejected_response d) as [r|] eqn:Hr; [|discriminate].
  cbn [bind]. intros [= <-]. exists d, p, c, r. auto.
Qed.

(** X3: every outcome of the Preference Formatter on one example.  It
    returns a record exactly for a dict that has the three keys, and puts
    the three values, of whatever type, in the record unchanged; on a dict
    it otherwise raises [KeyError] for the first key that is missing, in
    the order [prompt], [chosen_response], [rejected_response]; on anything
    that is not a dict it raises [TypeError]; it raises nothing else. *)
Theorem X3_preference_format_outcomes (example : pyval) :
  match preference_format example with
  | Ok record =>
      exists d p c r,
        example = PDict d
        /\ dict_get K_prompt d = Some p
        /\ dict_get K_chosen_response d = Some c
        /\ dict_get K_rejected_response d = Some r
        /\ record =
           PDict [(K_input, PDict [(K_messages, PList [message K_user p])]);
                  (K_preferred_output, PList [message K_assistant c]);
                  (K_non_preferred_output, PList [message K_assistant r])]
  | Raise (KeyError k) =>
      exists d,
        example = PDict d /\ dict_get k d = None
        /\ (k = K_prompt
            \/ (k = K_chosen_response /\ dict_get K_prompt d <> None)
            \/ (k = K_rejected_response /\ dict_get K_prompt d <> None
                /\ dict_get K_chosen_response d <> None))
  | Raise (TypeError _) =>
      match example with PDict _ => False | _ => True end
  | Raise _ => False
  end.
Proof.
  destruct (preference_format example) as [record|e] eqn:H.
  - now apply preference_format_ok.
  - unfold preference_format in H.
    destruct example as [| | | | |d]; cbn [getitem bind] in H;
      try (injection H as <-; exact I).
    destruct (dict_get K_prompt d) as [p|] eqn:Hp; cbn [bind] in H.
    + destruct (dict_get K_chosen_response d) as [c|] eqn:Hc;
        cbn [bind] in H.
      * destruct (dict_get K_rejected_response d) as [r|] eqn:Hr;
          cbn [bind] in H; [discriminate|].
        injection H as <-. exists d. rewrite Hp, Hc.
        split; [reflexivity|]. split; [exact Hr|].
        right; right. repeat split; discriminate.
      * injection H as <-. exists d. rewrite Hp.
        split; [reflexivity|]. split; [exact Hc|].
        right; left. split; [reflexivity|discriminate].
    + injection H as <-. exists d. auto.
Qed.

(* ------------------------------------------------------------------ *)
(** *** The two formatters one after the other *)

Lemma sft_format_of_preference_ok (example record : pyval) :
  preference_format example = Ok record ->
  exists s, convert_preference_to_sft_format record = Ok s.
Proof.
  intros H.
  destruct (preference_format_ok _ _ H)
    as (d & p & c & r & -> & Hp & Hc & Hr & ->).
  eexists. reflexivity.
Qed.

(** X4: the Supervised Formatter never fails on a record the Preference
    Formatter returned, whatever the values of the example's fields: the
    result is the user message with the prompt followed by the assistant
    message with the chosen response, and nothing of the rejected
    response. *)
Theorem X4_formatters_compose (example record : pyval) :
  preference_format example = Ok record ->
  exists p c,
    getitem example K_prompt = Ok p
    /\ getitem example K_chosen_response = Ok c
    /\ convert_preference_to_sft_format record =
       Ok (PDict [(K_messages,
                   PList [PDict [(K_role, PStr K_user); (K_content, p)];
                          PDict [(K_role, PStr K_assistant);
                                 (K_content, c)]])]).
Proof.
  intros H.
  destruct (preference_format_ok _ _ H)
    as (d & p & c & r & -> & Hp & Hc & Hr & ->).
  exists p, c. cbn [getitem]. rewrite Hp, Hc. repeat split.
Qed.

Lemma X4_formatters_compose_witness :
  let example := PDict [(K_prompt, PNone);
                        (K_chosen_response, PInt 7);
                        (K_rejected_response, PStr (of_string "B"))] in
  exists p c,
    getitem example K_prompt = Ok p
    /\ getitem example K_chosen_response = Ok c
    /\ convert_preference_to_sft_format
         (PDict [(K_input, PDict [(K_messages, PList [message K_user PNone])]);
                 (K_preferred_output, PList [message K_assistant (PInt 7)]);
                 (K_non_preferred_output,
                  PList [message K_assistant (PStr (of_string "B"))])]) =
       Ok (PDict [(K_messages,
                   PList [PDict [(K_role, PStr K_user); (K_content, p)];
                          PDict [(K_role, PStr K_assistant);
                                 (K_content, c)]])]).
Proof.
  intros example. apply (X4_formatters_compose example). reflexivity.
Defined.



Lemma sft_format_small_ints (data sft_format : pyval) :
  convert_preference_to_sft_format data = Ok sft_format ->
  small_ints data = true ->
  small_ints sft_format = true.
Proof.
  rewrite sft_format_reads. intros H Hf.
  destruct (getitem data K_input) as [input|] eqn:Hin; [|discriminate].
  cbn [bind] in H.
  destruct (getitem input K_messages) as [ims|] eqn:Hims; [|discriminate].
  cbn [bind] in H.
  destruct (iterate ims) as [msgs|] eqn:Hmsgs; [|discriminate].
  cbn [bind] in H.
  destruct (getitem data K_preferred_output) as [po|] eqn:Hpo;
    [|discriminate].
  cbn [bind] in H.
  destruct (iterate po) as [extension|] eqn:Hext; [|discriminate].
  cbn [bind] in H. injection H as <-.
  pose proof (getitem_small_ints _ _ _ Hin Hf) as Hsin.
  pose proof (getitem_small_ints _ _ _ Hims Hsin) as Hsims.
  pose proof (getitem_small_ints _ _ _ Hpo Hf) as Hspo.
  pose proof (iterate_small_ints _ _ Hmsgs Hsims) as Hm.
  pose proof (iterate_small_ints _ _ Hext Hspo) as He.
  cbn [small_ints forallb snd]. rewrite andb_true_r, forallb_app.
  apply andb_true_iff. rewrite !forallb_forall, <- !Forall_forall. auto.
Qed.








(* ------------------------------------------------------------------ *)
(** *** More on the supervised conversion of a split *)
















(* ------------------------------------------------------------------ *)
(** *** The files as JSON lines *)

(** The writer's loop on records that [json.dumps] encodes. *)
Lemma write_loop_all (records : list pyval) :
  Forall (fun record => dumps record = Ok (json_dumps record)) records ->
  forall written,
    write_loop records written = (written ++ write_jsonl records, None).
Proof.
  induction 1 as [|r records Hr _ IH]; intros written;
    cbn [write_loop write_jsonl map].
  - now rewrite app_nil_r.
  - rewrite Hr, IH, <- app_assoc. reflexivity.
Qed.

(** The writer's loop on shallow records: it stops at the first record
    holding an integer of too many digits. *)
Lemma write_loop_shallow (records : list pyval) :
  Forall (fun record => shallow record = true) records ->
  forall written,
    exists done rest,
      records = done ++ rest
      /\ forallb small_ints done = true
      /\ (forall record, hd_error rest = Some record ->
                         small_ints record = false)
      /\ fst (write_loop records written) = written ++ write_jsonl done
      /\ snd (write_loop records written) =
         match rest with
         | [] => None
         | _ :: _ => Some ValueError
         end.
Proof.
  induction 1 as [|r records Hr _ IH]; intros written.
  - exists [], []. cbn [write_loop write_jsonl map fst snd app forallb].
    rewrite app_nil_r. repeat split; auto. discriminate.
  - cbn [write_loop]. rewrite (dumps_shallow _ Hr).
    destruct (small_ints r) eqn:Hsmall.
    + destruct (IH (written ++ [json_dumps r ++ newline]))
        as (done & rest & -> & Hd & Hrest & Hw & He).
      exists (r :: done), rest. cbn [forallb app]. rewrite Hsmall, Hd.
      repeat split; auto.
      rewrite Hw, <- app_assoc. reflexivity.
    + exists [], (r :: records).
      cbn [write_jsonl map fst snd app forallb hd_error].
      rewrite app_nil_r. repeat split; auto. now intros record [= <-].
Qed.

(** X10: every write of the JSON-lines writer is a text of printable ASCII
    characters followed by one line feed (a line feed or a character
    outside ASCII in a string is written as an escape), so the file is
    pure ASCII and has exactly one line per record written.  On records
    nested at most 400 deep the writer, which has no handler, writes the
    records up to the first that holds an integer of more than 4300
    digits, where [json.dumps] raises [ValueError]; without such a record
    the file has one line per record. *)
Theorem X10_one_ascii_line_per_write (records : list pyval) :
  Forall (fun record => shallow record = true) records ->
  exists done rest,
    records = done ++ rest
    /\ forallb small_ints done = true
    /\ (forall record, hd_error rest = Some record ->
                       small_ints record = false)
    /\ fst (write_loop records []) = write_jsonl done
    /\ snd (write_loop records []) =
       match rest with
       | [] => None
       | _ :: _ => Some ValueError
       end
    /\ Forall (fun written =>
                 exists text,
                   written = text ++ newline /\ Forall printable text)
              (write_jsonl done)
    /\ Forall (fun c => (c < 128)%N) (file_contents (write_jsonl done))
    /\ count_lines (file_contents (write_jsonl done)) = length done.
Proof.
  intros Hs.
  destruct (write_loop_shallow records Hs [])
    as (done & rest & E & Hd & Hrest & Hw & He).
  exists done, rest.
  split; [exact E|]. split; [exact Hd|]. split; [exact Hrest|].
  split; [exact Hw|]. split; [exact He|].
  split; [|split].
  - unfold write_jsonl. apply Forall_map, Forall_forall. intros r _.
    exists (json_dumps r). split; [reflexivity|apply json_dumps_printable].
  - unfold file_contents, write_jsonl. clear.
    induction done as [|r done IH]; cbn [map concat]; [constructor|].
    apply Forall_app; split; [|exact IH].
    apply Forall_app; split.
    + eapply Forall_impl; [|apply json_dumps_printable].
      unfold printable. intros c Hc. lia.
    + repeat constructor.
  - apply write_jsonl_lines.
Qed.

Lemma X10_one_ascii_line_per_write_witness :
  let first :=
    preference_of {| prompt := of_string "c#";
                     chosen_response := [128512; 10; 34; 92]%N;
                     rejected_response := [] |} in
  let records := [first; PList [PInt (10 ^ 4300)]; PNone] in
  exists done rest,
    records = done ++ rest
    /\ forallb small_ints done = true
    /\ (forall record, hd_error rest = Some record ->
                       small_ints record = false)
    /\ fst (write_loop records []) = write_jsonl done
    /\ snd (write_loop records []) =
       match rest with
       | [] => None
       | _ :: _ => Some ValueError
       end
    /\ Forall (fun written =>
                 exists text,
                   written = text ++ newline /\ Forall printable text)
              (write_jsonl done)
    /\ Forall (fun c => (c < 128)%N) (file_contents (write_jsonl done))
    /\ count_lines (file_contents (write_jsonl done)) = length done.
Proof.
  intros first records.
  apply (X10_one_ascii_line_per_write records).
  repeat constructor.
Defined.

Section Sample.

#[local] Open Scope N_scope.






End Sample.





(** X13: the JSON-lines writer goes through records that are nested at
    most 400 deep and survive the JSON text (integers of at most 4300
    digits, no repeated key, no high surrogate right before a low one),
    and every line of its file decodes to the record it was written for,
    line feed included: the file is a faithful copy of the records, in
    order. *)
Theorem X13_every_line_decodes_to_its_record (records : list pyval) :
  Forall (fun record => json_safe record = true) records ->
  Forall (fun record => shallow record = true) records ->
  write_loop records [] = (write_jsonl records, None)
  /\ map json_loads (write_jsonl records) = map Ok records.
Proof.
  intros Hsafe Hshallow.
  rewrite Forall_forall in Hsafe, Hshallow. split.
  - apply (write_loop_all records).
    apply Forall_forall. intros record Hin.
    rewrite (dumps_shallow _ (Hshallow _ Hin)).
    now rewrite (json_safe_small_ints _ (Hsafe _ Hin)).
  - unfold write_jsonl. rewrite map_map.
    apply map_ext_in. intros record Hin.
    apply json_loads_line; [now apply Hsafe|].
    now apply shallow_fits, Hshallow.
Qed.

Lemma X13_every_line_decodes_to_its_record_witness :
  let records :=
    [preference_of {| prompt := of_string "c#";
                      chosen_response := [128512; 10; 34; 92]%N;
                      rejected_response := [] |};
     supervised_of {| prompt := [233; 55357]%N;
                      chosen_response := of_string "A";
                      rejected_response := of_string "B" |}] in
  write_loop records [] = (write_jsonl records, None)
  /\ map json_loads (write_jsonl records) = map Ok records.
Proof.
  intros records. apply X13_every_line_decodes_to_its_record.
  - repeat constructor.
  - repeat constructor.
Defined.
